(** * weathercloud-api: the public query operations of [src/index.ts]

    A shallow embedding of the seven exported operations ([fetchWeather],
    [getStationStatus], [getStatistics], [getNearest], [getTop], [getOwn],
    [login]) and of the derivation of the weather report, followed by the
    properties the specification states about them.

    Conventions of the embedding:
    - a JavaScript value is a [value]; a JSON object is a [gmap string value];
    - a JavaScript number is a [num]: an IEEE 754 binary64 value, as the
      Standard Library specifies it ([spec_float] with a 53-bit mantissa):
      signed zeros, finite values, the infinities and [NaN], with the
      arithmetic rounded to nearest, ties to even;
    - an [async] function is a state transformer over the [world] (session
      store and the trace of the requests issued so far) that ends in a
      value ([Ret]) or in a thrown value ([Throw], a rejected promise);
    - the collaborators imported from [./utils] and the transport ([fetch])
      are the fields of the class [Utils]: every operation is defined for
      an arbitrary instance. *)

From Stdlib Require Import QArith ZArith Lia SpecFloat.
From stdpp Require Import base strings gmap list pretty.

#[local] Set Warnings "-register-all".
#[local] Open Scope string_scope.

(** ** Numbers *)

Module Num.

(** Binary64: 53 bits of mantissa, the infinities at exponent 1024. *)
Definition prec : Z := 53.
Definition emax : Z := 1024.

Definition num : Type := spec_float.

Definition NaN : num := S754_nan.

(** The number an integer denotes (exact below 2^53 in magnitude). *)
Definition of_Z (z : Z) : num := binary_normalize prec emax z 0 false.

Definition sub : num -> num -> num := SFsub prec emax.
Definition mul : num -> num -> num := SFmul prec emax.
Definition div : num -> num -> num := SFdiv prec emax.

(** The number a decimal literal of the source denotes: the binary64
    value nearest to the fraction (for a numerator and a denominator below
    2^53, which are exact, the rounded quotient is that value). *)
Definition Fin (q : Q) : num := div (of_Z (Qnum q)) (of_Z (Zpos (Qden q))).

(** [a < b]; false as soon as one side is [NaN]. *)
Definition ltb : num -> num -> bool := SFltb.

(** [a > b] is [b < a]. *)
Definition gtb (a b : num) : bool := ltb b a.

(** [a <= b]; false as soon as one side is [NaN]. *)
Definition leb : num -> num -> bool := SFleb.

Definition geb (a b : num) : bool := leb b a.

(** Numeric equality; [NaN] equals nothing, the two zeros are equal. *)
Definition eqb : num -> num -> bool := SFeqb.

(** [Math.max(a, b)]: [NaN] if an argument is [NaN]; of the two zeros the
    positive one is the larger. *)
Definition max (a b : num) : num :=
  match SFcompare a b with
  | None => NaN
  | Some Lt => b
  | Some Gt => a
  | Some Eq => match a with S754_zero true => b | _ => a end
  end.

(** [Math.round(a)]: the integer nearest to [a], ties towards +infinity,
    that is the floor of [a + 1/2] computed exactly; an [a] with a
    non-negative exponent is an integer already, and a result that is
    zero keeps the sign of [a]. *)
Definition round (a : num) : num :=
  match a with
  | S754_finite s m e =>
      if (0 <=? e)%Z then a
      else binary_normalize prec emax
             ((2 * cond_Zopp s (Zpos m) + 2 ^ (- e)) / 2 ^ (1 - e)) 0 s
  | S754_zero _ | S754_infinity _ | S754_nan => a
  end.

(** The integer part (towards -infinity) of a finite number. *)
Definition floor (a : num) : option Z :=
  match a with
  | S754_zero _ => Some 0%Z
  | S754_finite s m e => Some (Z.shiftl (cond_Zopp s (Zpos m)) e)
  | S754_infinity _ | S754_nan => None
  end.

(** [a <= b] as a proposition: the two are ordered and [a] is not the
    larger. *)
Definition le (a b : num) : Prop := exists c, SFcompare a b = Some c /\ c <> Gt.

End Num.

Export Num (num, NaN, Fin).

(** Literals are computed with [vm_compute] only, never unfolded by
    [simpl] or by unification. *)
#[global] Arguments Num.Fin : simpl never.
#[global] Arguments Num.of_Z : simpl never.
#[global] Opaque Num.Fin.

(** ** Values *)

(** JSON values, [undefined], and the two kinds of error object the
    operations create: [new Error(msg)] and the engine's [TypeError] (its
    message is implementation-defined and not recorded). *)
Inductive value :=
  | VUndef
  | VNull
  | VBool (b : bool)
  | VNum (n : num)
  | VStr (s : string)
  | VArr (l : list value)
  | VObj (m : gmap string value)
  | VError (msg : string)
  | VTypeError.

(** The result of running a piece of code: a value, or a thrown value. *)
Inductive outcome (A : Type) :=
  | Ret (a : A)
  | Throw (e : value).
Arguments Ret {A} a.
Arguments Throw {A} e.

#[global] Instance outcome_bind : MBind outcome := fun A B f o =>
  match o with
  | Ret a => f a
  | Throw e => Throw e
  end.
#[global] Instance outcome_ret : MRet outcome := @Ret.

(** [!v] is [negb (truthy v)]. *)
Definition truthy (v : value) : bool :=
  match v with
  | VUndef | VNull => false
  | VBool b => b
  | VNum (S754_nan | S754_zero _) => false
  | VNum (S754_finite _ _ _ | S754_infinity _) => true
  | VStr s => negb (bool_decide (s = ""))
  | VArr _ | VObj _ | VError _ | VTypeError => true
  end.

(** [Array.isArray(v)]. *)
Definition isArray (v : value) : bool :=
  match v with VArr _ => true | _ => false end.

(** The index an array property name denotes, among the indices of [l]. *)
Definition array_index (k : string) (l : list value) : option nat :=
  find (fun i => bool_decide (pretty i = k)) (seq 0 (length l)).

(** [k in v].  The property names this program tests ([temp], [update],
    [observer], [date], [temp_current], [devices], [favorites]) are defined
    by no prototype, so only own properties are looked at.  On a value that
    is not an object the operator throws a [TypeError]. *)
Definition js_in (k : string) (v : value) : outcome bool :=
  match v with
  | VObj m => Ret (bool_decide (is_Some (m !! k)))
  | VArr l => Ret (bool_decide (k = "length") || bool_decide (is_Some (array_index k l)))
  | VError _ | VTypeError => Ret (bool_decide (k = "message") || bool_decide (k = "stack"))
  | VUndef | VNull | VBool _ | VNum _ | VStr _ => Throw VTypeError
  end.

(** [v.k] (and [v[0]] as [prop v "0"]).  A missing property reads
    [undefined].  Every read in this program follows a successful [in] or
    [Array.isArray] test on [v], so [v] is an object or an array there; the
    primitives read [undefined]. *)
Definition prop (v : value) (k : string) : value :=
  match v with
  | VObj m => default VUndef (m !! k)
  | VArr l =>
      if bool_decide (k = "length") then VNum (Num.of_Z (Z.of_nat (length l)))
      else default VUndef (i ← array_index k l; l !! i)
  | VError msg => if bool_decide (k = "message") then VStr msg else VUndef
  | VUndef | VNull | VBool _ | VNum _ | VStr _ | VTypeError => VUndef
  end.

(** The own enumerable properties of [v], as object spread [{...v}] and
    rest destructuring copy them. *)
Definition own_props (v : value) : gmap string value :=
  match v with
  | VObj m => m
  | VArr l => list_to_map (imap (fun i x => (pretty i, x)) l)
  | _ => ∅
  end.

(** [{ error: err }]. *)
Definition error_obj (err : value) : value := VObj {["error" := err]}.

(** The errors the operations throw themselves. *)
Definition InvalidId : value := VError "invalid ID".
Definition FetchFailed : value := VError "Failed to fetch".
Definition InvalidData : value := VError "Invalid data".
Definition SessionRequired : value := VError "Session required!".
Definition PeriodRequired : value := VError "Period required for popular ranking".

(** ** Strings *)

Definition is_digit (c : Ascii.ascii) : bool :=
  let n := Ascii.nat_of_ascii c in (48 <=? n)%nat && (n <=? 57)%nat.

(** [/^\d{10}$/.test(id)]: without the [m] and [u] flags, the whole input
    is ten characters, each in [0-9]. *)
Definition ten_digits (id : string) : bool :=
  (String.length id =? 10)%nat && forallb is_digit (String.list_ascii_of_string id).

(** [l.join(sep)]. *)
Fixpoint join (sep : string) (l : list string) : string :=
  match l with
  | [] => ""
  | [s] => s
  | s :: l' => s ++ sep ++ join sep l'
  end.

(** [s.split(sep)] for a non-empty [sep]: [skip] counts the characters of a
    matched separator still to drop, [cur] is the piece being read. *)
Fixpoint split_from (sep : string) (skip : nat) (cur s : string) : list string :=
  match s with
  | EmptyString => [cur]
  | String c s' =>
      match skip with
      | S k => split_from sep k cur s'
      | O =>
          if String.prefix sep s
          then cur :: split_from sep (String.length sep - 1) "" s'
          else split_from sep 0 (cur ++ String c "") s'
      end
  end.

Definition split (sep s : string) : list string := split_from sep 0 "" s.

(** ** The world: session store and requests *)

(** Modelled from the spec: the Session of §3 and §4.3 ([./utils] is not
    among the sources): the current cookie pairs and, optionally, the
    remembered credentials (mail, password). *)
Record session := {
  cookies : list (string * string);
  credentials : option (string * string);
}.

(** The options object [login] passes to [fetch]. *)
Record request := {
  method : string;
  headers : list (string * string);
  body : list (string * string);
  redirect : string;
}.

(** What [login] reads of the response: [resp.status] and
    [resp.headers.getSetCookie()]. *)
Record response := {
  status : Z;
  getSetCookie : list string;
}.

(** What an operation does to the outside, in order. *)
Inductive event :=
  | FetchData (url : string) (payload : option string)
  | Fetch (url : string) (req : request)
  | Log (msg : string).

Record world := {
  store : session;
  trace : list event;
}.

Definition record_event (e : event) (w : world) : world :=
  {| store := store w; trace := trace w ++ [e] |}.

(** ** Collaborators *)

(** What [src/index.ts] imports from [./utils], and the transport.  The
    remote replies may depend on everything that happened before (the
    world at the time of the call). *)
Class Utils := {
  (** wind chill and heat index, pure functions of two readings *)
  chillFn : value -> value -> value;
  heatFn : value -> value -> value;
  (** [parseDevicesList(devices, sortKey?)] *)
  parseDevicesList : value -> option string -> outcome value;
  (** [fetchData(url, body?)]: the decoded reply, or a rejection *)
  fetchData_reply : world -> string -> option string -> outcome value;
  (** the global [fetch(url, options)] *)
  fetch_reply : world -> string -> request -> outcome response;
  (** [setCookies(rawCookies, mail, password)]: its result and the new
      session store *)
  setCookies : list string -> string -> string -> session -> outcome bool * session;
  (** [ToNumber] on strings, arrays and objects (the string-to-number
      grammar is not modelled) *)
  coerce : value -> num;
  (** [ToString] of a number, in template literals *)
  show_num : num -> string;
  (** the local time of day of [new Date(ms)]: [getHours()],
      [getMinutes()], [getSeconds()] (they depend on the time zone) *)
  getHours : num -> num;
  getMinutes : num -> num;
  getSeconds : num -> num;
}.

(** ** Asynchronous code as state transformers *)

(** A computation over a state [S] that ends in a value or a thrown value.
    [x ← m; k] is sequencing ([await] included): a throw in [m] skips [k]. *)
Definition M (S A : Type) : Type := S -> outcome A * S.

#[global] Instance M_ret {S} : MRet (M S) := fun A a s => (Ret a, s).

#[global] Instance M_bind {S} : MBind (M S) := fun A B f m s =>
  match m s with
  | (Ret a, s') => f a s'
  | (Throw e, s') => (Throw e, s')
  end.

(** [throw e]. *)
Definition throw {S A} (e : value) : M S A := fun s => (Throw e, s).

(** A pure step that may throw. *)
Definition lift {S A} (o : outcome A) : M S A := fun s => (o, s).

(** [try { body } catch (err) { handler err }]. *)
Definition try_catch {S A} (body : M S A) (handler : value -> M S A) : M S A :=
  fun s =>
    match body s with
    | (Ret a, s') => (Ret a, s')
    | (Throw e, s') => handler e s'
    end.

(** The states an operation runs over: the world, possibly with the
    operation's own mutable locals around it. *)
Class Frame (S : Type) := {
  frame_world : S -> world;
  frame_with : world -> S -> S;
}.

#[global] Instance world_frame : Frame world := {|
  frame_world w := w;
  frame_with w _ := w;
|}.

(** [getTop]'s mutable local [let url]; [None] before its declaration is
    reached. *)
Record top_frame := {
  url : option string;
  top_world : world;
}.

#[global] Instance top_frame_frame : Frame top_frame := {|
  frame_world := top_world;
  frame_with w f := {| url := url f; top_world := w |};
|}.

Section Operations.
Context `{Utils}.

(** *** The calls to the outside *)

Section Calls.
Context {S : Type} `{Frame S}.

(** [await fetchData(url, payload)]: the request is issued, then the reply
    is the value or the rejection. *)
Definition fetchData (u : string) (payload : option string) : M S value :=
  fun s =>
    let w := frame_world s in
    (fetchData_reply w u payload, frame_with (record_event (FetchData u payload) w) s).

(** [await fetch(url, options)]. *)
Definition fetch (u : string) (req : request) : M S response :=
  fun s =>
    let w := frame_world s in
    (fetch_reply w u req, frame_with (record_event (Fetch u req) w) s).

(** [console.log(msg)]. *)
Definition console_log (msg : string) : M S unit :=
  fun s => (Ret tt, frame_with (record_event (Log msg) (frame_world s)) s).

(** Modelled from the spec: [await getCookie()] reads the current cookie
    set of the session store (§4.3, [getCookies]); [./utils] is not among
    the sources. *)
Definition getCookie : M S (list (string * string)) :=
  fun s => (Ret (cookies (store (frame_world s))), s).

(** [setCookies(raw, mail, password)] on the session store of the world. *)
Definition call_setCookies (raw : list string) (mail password : string) : M S bool :=
  fun s =>
    let w := frame_world s in
    let '(r, st) := setCookies raw mail password (store w) in
    (r, frame_with {| store := st; trace := trace w |} s).

End Calls.

(** *** Coercions of the comparisons and of the arithmetic *)

(** [ToNumber]. *)
Definition ToNumber (v : value) : num :=
  match v with
  | VUndef => NaN
  | VNull => Fin 0
  | VBool b => Fin (if b then 1 else 0)
  | VNum n => n
  | VStr _ | VArr _ | VObj _ | VError _ | VTypeError => coerce v
  end.

(** [v == 0]: [null] and [undefined] are loosely equal only to each other;
    every other value is compared as a number. *)
Definition loose_eq_zero (v : value) : bool :=
  match v with
  | VUndef | VNull => false
  | _ => Num.eqb (ToNumber v) (Fin 0)
  end.

(** *** The derivation of the weather report (lines 25 to 57) *)

(** Line 27. *)
Definition cloudsHeight (data : value) : num :=
  if Num.gtb (ToNumber (prop data "temp")) (Fin (-40))
     && Num.gtb (ToNumber (prop data "dew")) (Fin (-40))
  then Num.max (Fin 0)
         (Num.mul (Fin (12469 # 100))
            (Num.sub (ToNumber (prop data "temp")) (ToNumber (prop data "dew"))))
  else Fin (-1).

(** The condition of lines 30 to 34. *)
Definition invalid_data (data : value) : bool :=
  Num.ltb (ToNumber (prop data "bar")) (Fin 0)
  || Num.ltb (ToNumber (prop data "rainrate")) (Fin 0)
  || Num.ltb (cloudsHeight data) (Fin 0)
  || Num.ltb (ToNumber (prop data "hum")) (Fin 0)
  || Num.gtb (ToNumber (prop data "hum")) (Fin 100).

(** Lines 38 to 52. *)
Definition weatherAvg (data : value) : string :=
  if loose_eq_zero (prop data "rainrate") then
    let label :=
      if Num.ltb (ToNumber (prop data "bar")) (Fin 1005) then "cloud"
      else if Num.ltb (ToNumber (prop data "bar")) (Fin 1010) then "change"
      else if Num.ltb (ToNumber (prop data "bar")) (Fin 1015) then "few"
      else "clear" in
    if Num.ltb (cloudsHeight data) (Fin 150) then label ++ "-fog" else label
  else
    if Num.ltb (ToNumber (prop data "rainrate")) (Fin 2) then "light"
    else if Num.ltb (ToNumber (prop data "rainrate")) (Fin 15) then "moderate"
    else "heavy".

(** Lines 55 to 57. *)
Definition feel (data : value) : value :=
  if Num.ltb (ToNumber (prop data "temp")) (Fin 10)
  then chillFn (prop data "temp") (prop data "wspd")
  else if Num.gtb (ToNumber (prop data "temp")) (Fin 26)
  then heatFn (prop data "temp") (prop data "hum")
  else prop data "temp".

(** Line 71: the time of day of [new Date(epoch*1000)]. *)
Definition time_of_day (epoch : value) : string :=
  let time := Num.mul (ToNumber epoch) (Fin 1000) in
  show_num (getHours time) ++ ":" ++ show_num (getMinutes time)
    ++ ":" ++ show_num (getSeconds time).

(** Lines 20 to 23: [||] evaluates its right operand only when the left
    one is false. *)
Definition marker_missing (data lastUpdate profile : value) : outcome bool :=
  t ← js_in "temp" data;
  if negb t then Ret true else
  u ← js_in "update" lastUpdate;
  if negb u then Ret true else
  o ← js_in "observer" profile;
  Ret (negb o).

(** Lines 19 to 79 of [fetchWeather]: from the three payloads to the
    report. *)
Definition weatherReport (data lastUpdate profile : value) : outcome value :=
  missing ← marker_missing data lastUpdate profile;
  if missing : bool then Throw FetchFailed else
  if invalid_data data then Throw InvalidData else
  let epoch := prop data "epoch" in
  let dataToSave := delete "epoch" (own_props data) in
  let weather :=
    <["feel" := feel data]>
      (<["weatherAvg" := VStr (weatherAvg data)]>
         (<["cloudsHeight" := VNum (cloudsHeight data)]> dataToSave)) in
  let update :=
    <["updateTime" := epoch]>
      (<["lastUpdateMinutes" :=
           VNum (Num.round (Num.div (ToNumber (prop lastUpdate "update")) (Fin 60)))]>
         (<["time" := VStr (time_of_day epoch)]> (own_props lastUpdate))) in
  Ret (VObj {[ "weather" := VObj weather; "update" := VObj update; "profile" := profile ]}).

(** *** The operations *)

Definition values_url (id : string) : string :=
  "https://app.weathercloud.net/device/values?code=" ++ id.
Definition updatedate_url : string := "https://app.weathercloud.net/device/ajaxupdatedate".
Definition profile_url : string := "https://app.weathercloud.net/device/ajaxprofile".

(** The body of the [try] of [fetchWeather]. *)
Definition fetchWeather_try (id : string) : M world value :=
  if bool_decide (id = "") || ten_digits id then throw InvalidId else
  data ← fetchData (values_url id) None;
  lastUpdate ← fetchData updatedate_url (Some ("d=" ++ id));
  profile ← fetchData profile_url (Some ("d=" ++ id));
  lift (weatherReport data lastUpdate profile).

Definition fetchWeather (id : string) : M world value :=
  try_catch (fetchWeather_try id) (fun err => mret (error_obj err)).

Definition getStationStatus_try (id : string) : M world value :=
  c ← getCookie;
  if (length c <? 1)%nat then throw SessionRequired else
  data ← fetchData "https://app.weathercloud.net/device/ajaxdevicestats" (Some ("device=" ++ id));
  bad ← lift (if negb (truthy data) then Ret true
              else if negb (isArray data) then Ret true
              else d ← js_in "date" (prop data "0"); Ret (negb d));
  if bad : bool then throw FetchFailed else mret data.

Definition getStationStatus (id : string) : M world value :=
  try_catch (getStationStatus_try id) (fun err => mret (error_obj err)).

Definition getStatistics_try (id : string) : M world value :=
  data ← fetchData "https://app.weathercloud.net/device/stats" (Some ("code=" ++ id));
  bad ← lift (if negb (truthy data) then Ret true
              else t ← js_in "temp_current" data; Ret (negb t));
  if bad : bool then throw FetchFailed else mret data.

Definition getStatistics (id : string) : M world value :=
  try_catch (getStatistics_try id) (fun err => mret (error_obj err)).

(** A [string | number] argument inside a template literal. *)
Definition show (x : string + num) : string :=
  match x with
  | inl s => s
  | inr n => show_num n
  end.

(** The test [!data || !("devices" in data) || !Array.isArray(data.devices)]. *)
Definition no_devices_array (data : value) : outcome bool :=
  if negb (truthy data) then Ret true else
  d ← js_in "devices" data;
  if negb d then Ret true else
  Ret (negb (isArray (prop data "devices"))).

Definition getNearest_try (lat lon radius : string + num) : M world value :=
  data ← fetchData ("https://app.weathercloud.net/page/coordinates/latitude/" ++ show lat
                      ++ "/longitude/" ++ show lon ++ "/distance/" ++ show radius) None;
  bad ← lift (no_devices_array data);
  if bad : bool then throw FetchFailed else
  lift (parseDevicesList (prop data "devices") (Some "distance")).

Definition getNearest (lat lon radius : string + num) : M world value :=
  try_catch (getNearest_try lat lon radius) (fun err => mret (VArr [error_obj err])).

(** The first parameter of [getTop]. *)
Inductive definer := newest | followers | popular.

Definition definer_string (d : definer) : string :=
  match d with
  | newest => "newest"
  | followers => "followers"
  | popular => "popular"
  end.

(** [!period] for the optional [period?: periodStr]. *)
Definition no_period (period : option string) : bool :=
  match period with
  | None => true
  | Some p => bool_decide (p = "")
  end.

(** Assignment to, and reading of, the local [url]. *)
Definition set_url (u : string) : M top_frame unit :=
  fun f => (Ret tt, {| url := Some u; top_world := top_world f |}).
Definition get_url : M top_frame string :=
  fun f => (Ret (default "" (url f)), f).

Definition getTop_try (d : definer) (countryCode : string) (period : option string)
  : M top_frame value :=
  set_url ("https://app.weathercloud.net/page/" ++ definer_string d
             ++ "/country/" ++ countryCode);;
  match d with
  | popular =>
      if no_period period then throw PeriodRequired else
      u ← get_url; set_url (u ++ "/period/" ++ default "" period)
  | _ => mret tt
  end;;
  u ← get_url;
  console_log u;;
  data ← fetchData u None;
  bad ← lift (no_devices_array data);
  if bad : bool then throw FetchFailed else
  let dataType :=
    match d with
    | newest => "age"
    | popular => "views"
    | followers => definer_string d
    end in
  lift (parseDevicesList (prop data "devices") (Some dataType)).

(** [getTop] started in the world [w]: its result and its frame at the
    end. *)
Definition getTop_run (d : definer) (countryCode : string) (period : option string)
    (w : world) : outcome value * top_frame :=
  try_catch (getTop_try d countryCode period) (fun err => mret (error_obj err))
    {| url := None; top_world := w |}.

Definition getTop (d : definer) (countryCode : string) (period : option string)
  : M world value :=
  fun w => let '(r, f) := getTop_run d countryCode period w in (r, top_world f).

Definition getOwn_try : M world value :=
  c ← getCookie;
  if (length c <? 1)%nat then throw SessionRequired else
  data ← fetchData "https://app.weathercloud.net/page/own" None;
  bad ← lift (if negb (truthy data) then Ret true
              else d ← js_in "devices" data;
                   if negb d then Ret true
                   else f ← js_in "favorites" data; Ret (negb f));
  if bad : bool then throw FetchFailed else
  devices ← lift (parseDevicesList (prop data "devices") None);
  favorites ← lift (parseDevicesList (prop data "favorites") None);
  mret (VObj {[ "devices" := devices; "favorites" := favorites ]}).

Definition getOwn : M world value :=
  try_catch getOwn_try (fun err => mret (error_obj err)).

(** The request of [login]. *)
Definition signin_request (mail password : string) : request := {|
  method := "post";
  headers := [("Content-Type", "application/x-www-form-urlencoded; charset=UTF-8");
              ("X-Requested-With", "XMLHttpRequest")];
  body := [("LoginForm[entity]", mail);
           ("LoginForm[password]", password);
           ("LoginForm[rememberMe]", "1")];
  redirect := "manual";
|}.

Definition signin_url : string := "https://app.weathercloud.net/signin".

(** [login]; [storeCredentials] is [None] when the argument is left out.
    There is no [try] in this function. *)
Definition login (mail password : string) (storeCredentials : option bool) : M world bool :=
  resp ← fetch signin_url (signin_request mail password);
  if negb (status resp =? 302)%Z then mret false else
  let store_ := if default false storeCredentials then (mail, password) else ("", "") in
  ok ← call_setCookies (split "; " (join "; " (getSetCookie resp))) store_.1 store_.2;
  if negb ok then mret false else mret true.

End Operations.

(** ** Vocabulary of the statements *)

Section Vocabulary.
Context `{Utils}.

(** Step 1 of the report assembler lets [id] through. *)
Definition valid_id (id : string) : Prop := id ≠ "" ∧ ten_digits id = false.

(** The worlds after the first, second and third request of
    [fetchWeather]. *)
Definition after_values (id : string) (w : world) : world :=
  record_event (FetchData (values_url id) None) w.
Definition after_update (id : string) (w : world) : world :=
  record_event (FetchData updatedate_url (Some ("d=" ++ id))) (after_values id w).
Definition after_profile (id : string) (w : world) : world :=
  record_event (FetchData profile_url (Some ("d=" ++ id))) (after_update id w).

(** The three endpoints answer [fetchWeather id], started in [w], with the
    payloads [data], [lastUpdate] and [profile]. *)
Definition replies (id : string) (w : world) (data lastUpdate profile : value) : Prop :=
  fetchData_reply w (values_url id) None = Ret data
  ∧ fetchData_reply (after_values id w) updatedate_url (Some ("d=" ++ id)) = Ret lastUpdate
  ∧ fetchData_reply (after_update id w) profile_url (Some ("d=" ++ id)) = Ret profile.

(** The payload [v] carries the marker field [k]. *)
Definition has_marker (k : string) (v : value) : Prop := js_in k v = Ret true.

(** [v] is an object or an array: [in] is defined on it. *)
Definition is_object (v : value) : bool :=
  match v with
  | VObj _ | VArr _ | VError _ | VTypeError => true
  | VUndef | VNull | VBool _ | VNum _ | VStr _ => false
  end.

(** [r] is a report, not an [{ error }] value. *)
Definition is_report (r : value) : Prop := js_in "error" r = Ret false.

(** What reaches the caller of [fetchWeather]: the report, or the thrown
    value under [error]. *)
Definition settle (o : outcome value) : value :=
  match o with
  | Ret r => r
  | Throw e => error_obj e
  end.

(** [fetchWeather id], started in [w] and answered with the three
    payloads, returns the report [r]. *)
Definition reports (id : string) (w : world) (data lastUpdate profile r : value) : Prop :=
  replies id w data lastUpdate profile
  ∧ (fetchWeather id w).1 = Ret r
  ∧ is_report r.

(** The base of the ranking URL, before any period segment. *)
Definition ranking_url (d : definer) (countryCode : string) : string :=
  "https://app.weathercloud.net/page/" ++ definer_string d ++ "/country/" ++ countryCode.

(** [getTop], started in [w], fails with "Period required" and has not
    given its local [url] any value by then. *)
Definition fails_before_any_url (d : definer) (countryCode : string)
    (period : option string) (w : world) : Prop :=
  getTop_run d countryCode period w
  = (Ret (error_obj PeriodRequired), {| url := None; top_world := w |}).


(** [setCookies] remembers the credentials it is handed whenever it
    reports success. *)
Definition remembers_credentials : Prop :=
  ∀ raw mail password s s',
    setCookies raw mail password s = (Ret true, s') →
    credentials s' = Some (mail, password).

End Vocabulary.

(** ** A concrete environment *)

Module Sample.

(** A cookie out of a raw [name=value] piece. *)
Definition parse_cookie (raw : string) : option (string * string) :=
  match split "=" raw with
  | [name; v] => if bool_decide (name = "") then None else Some (name, v)
  | _ => None
  end.

(** [./utils] is not among the sources, and §4.3 of the specification
    leaves open when [setCookies] remembers credentials ("optionally").
    Two functions that fit it follow; both parse the raw pieces, report
    [false] and leave the store as it is when no cookie is parsed, and
    otherwise replace the cookie set and report [true].

    The first remembers whatever mail and password it is handed, empty
    strings included. *)
Definition store_cookies (raw : list string) (mail password : string) (s : session)
  : outcome bool * session :=
  match omap parse_cookie raw with
  | [] => (Ret false, s)
  | cs => (Ret true, {| cookies := cs; credentials := Some (mail, password) |})
  end.


Definition show_floor (n : num) : string :=
  match Num.floor n with
  | None => "NaN"
  | Some z => pretty z
  end.

(** Time of day in UTC. *)
Definition clock (unit_ms modulus : Z) (ms : num) : num :=
  match Num.floor ms with
  | None => NaN
  | Some z => Num.of_Z ((z / unit_ms) mod modulus)
  end.

(** A station that reports 5 degrees, dry, 1012 hPa. *)
Definition values : gmap string value :=
  {[ "temp" := VNum (Fin 5); "dew" := VNum (Fin 3); "bar" := VNum (Fin 1012);
     "hum" := VNum (Fin 80); "rainrate" := VNum (Fin 0); "wspd" := VNum (Fin 4);
     "epoch" := VNum (Fin 1700000000) ]}.

(** The same station in extreme cold. *)
Definition frozen : gmap string value := <["temp" := VNum (Fin (-45))]> values.

(** The same station at 10 degrees, and with the dew point above the
    temperature. *)
Definition warm : gmap string value := <["temp" := VNum (Fin 10)]> values.
Definition damp : gmap string value :=
  <["temp" := VNum (Fin 3)]> (<["dew" := VNum (Fin 10)]> values).

Definition lastUpdate : gmap string value := {[ "update" := VNum (Fin 95) ]}.
Definition profile : gmap string value := {[ "observer" := VStr "max" ]}.

(** The remote service: station [d1234] is the one above, station [cold]
    the frozen one, station [gone] has no profile; every other request is
    rejected. *)
Definition remote (w : world) (u : string) (payload : option string) : outcome value :=
  if bool_decide (u = values_url "d1234") || bool_decide (u = values_url "gone")
  then Ret (VObj values)
  else if bool_decide (u = values_url "cold") then Ret (VObj frozen)
  else if bool_decide (u = updatedate_url) then Ret (VObj lastUpdate)
  else if bool_decide (u = profile_url) then
    if bool_decide (payload = Some "d=gone") then Ret (VObj ∅) else Ret (VObj profile)
  else Throw VTypeError.

Definition signin_ok : response :=
  {| status := 302; getSetCookie := ["sid=42; Path=/"; "lang=en"] |}.

#[export] Instance online : Utils := {|
  chillFn t _ := VNum (Num.sub (match t with VNum n => n | _ => NaN end) (Fin 2));
  heatFn t _ := VNum (Num.sub (match t with VNum n => n | _ => NaN end) (Fin (-2)));
  parseDevicesList devices _ := Ret devices;
  fetchData_reply := remote;
  fetch_reply _ _ _ := Ret signin_ok;
  setCookies := store_cookies;
  coerce _ := NaN;
  show_num := show_floor;
  getHours := clock 3600000 24;
  getMinutes := clock 60000 60;
  getSeconds := clock 1000 60;
|}.


(** The report of station [d1234]. *)
Definition report : value :=
  settle (weatherReport (VObj values) (VObj lastUpdate) (VObj profile)).

(** The same environment with the network down: [fetch] rejects. *)
Definition offline : Utils := {|
  chillFn := @chillFn online;
  heatFn := @heatFn online;
  parseDevicesList := @parseDevicesList online;
  fetchData_reply _ _ _ := Throw VTypeError;
  fetch_reply _ _ _ := Throw VTypeError;
  setCookies := store_cookies;
  coerce _ := NaN;
  show_num := show_floor;
  getHours := clock 3600000 24;
  getMinutes := clock 60000 60;
  getSeconds := clock 1000 60;
|}.

(** A fresh process: empty session store, nothing issued yet. *)
Definition w0 : world :=
  {| store := {| cookies := []; credentials := None |}; trace := [] |}.

(** A process that remembers credentials from an earlier login. *)
Definition w_remembered : world :=
  {| store := {| cookies := [("sid", "7")]; credentials := Some ("old@mail", "old") |};
     trace := [] |}.

End Sample.

(** ** Vocabulary of the further properties *)

(** [s] without its first [n] characters. *)
Fixpoint string_drop (n : nat) (s : string) : string :=
  match n, s with
  | S k, String _ s' => string_drop k s'
  | _, _ => s
  end.

(** The world [w'] comes from [w] by requests and logging alone: the
    session store is the same and the trace of [w] begins the trace of
    [w']. *)
Definition extends (w w' : world) : Prop :=
  store w' = store w ∧ trace w `prefix_of` trace w'.

(** A computation that only appends to the trace. *)
Definition only_appends {S A} `{Frame S} (m : M S A) : Prop :=
  ∀ s, extends (frame_world s) (frame_world (m s).2).

(** The labels [weatherAvg] can take. *)
Definition condition_labels : list string :=
  ["clear"; "cloud"; "change"; "few";
   "clear-fog"; "cloud-fog"; "change-fog"; "few-fog";
   "light"; "moderate"; "heavy"].

(** The names of the derived fields of the weather section. *)
Definition derived_weather_keys : list string := ["cloudsHeight"; "weatherAvg"; "feel"].

(** The names of the derived fields of the update section. *)
Definition derived_update_keys : list string := ["time"; "lastUpdateMinutes"; "updateTime"].

(** The URL [getTop] requests when it gets that far. *)
Definition top_url (d : definer) (countryCode : string) (period : option string) : string :=
  match d with
  | popular => ranking_url d countryCode ++ "/period/" ++ default "" period
  | _ => ranking_url d countryCode
  end.

(** The sort key [getTop] hands to [parseDevicesList]. *)
Definition top_sort_key (d : definer) : string :=
  match d with
  | newest => "age"
  | followers => "followers"
  | popular => "views"
  end.

Definition stats_url : string := "https://app.weathercloud.net/device/stats".
Definition devicestats_url : string := "https://app.weathercloud.net/device/ajaxdevicestats".
Definition own_url : string := "https://app.weathercloud.net/page/own".

(** The URL of [getNearest]. *)
Definition nearest_url `{Utils} (lat lon radius : string + num) : string :=
  "https://app.weathercloud.net/page/coordinates/latitude/" ++ show lat
    ++ "/longitude/" ++ show lon ++ "/distance/" ++ show radius.

(** The array a failing [getNearest] returns. *)
Definition nearest_error (e : value) : value := VArr [error_obj e].

(** ** Environments built from given answers *)

Module Lab.

(** The environment in which every [fetchData] is answered by [answer]
    (from the URL and the body), the sign-in by [signin], and the device
    lists are parsed by [parse]; the rest is as in [Sample.online]. *)
Definition env (answer : string → option string → outcome value)
    (signin : outcome response)
    (parse : value → option string → outcome value) : Utils := {|
  chillFn := @chillFn Sample.online;
  heatFn := @heatFn Sample.online;
  parseDevicesList := parse;
  fetchData_reply _ := answer;
  fetch_reply _ _ _ := signin;
  setCookies := Sample.store_cookies;
  coerce _ := NaN;
  show_num := Sample.show_floor;
  getHours := Sample.clock 3600000 24;
  getMinutes := Sample.clock 60000 60;
  getSeconds := Sample.clock 1000 60;
|}.

(** A parser that keeps an array as it is, tags it with the sort key, and
    throws on anything else. *)
Definition parse (devices : value) (sortKey : option string) : outcome value :=
  match devices with
  | VArr l => Ret (VObj {[ "sorted_by" := from_option VStr VUndef sortKey; "list" := VArr l ]})
  | _ => Throw VTypeError
  end.

(** A logged-in process. *)
Definition w_session : world :=
  {| store := {| cookies := [("sid", "42")]; credentials := None |}; trace := [] |}.

Definition device : value := VObj {[ "code" := VStr "d1234"; "date" := VNum (Fin 1700000000) ]}.

(** Every request is answered with [v]. *)
Definition always (v : value) : string → option string → outcome value := λ _ _, Ret v.

(** Every request is rejected. *)
Definition down : string → option string → outcome value := λ _ _, Throw VTypeError.

(** The station of [Sample] with [v] as its values payload. *)
Definition station (v : value) : string → option string → outcome value := λ u _,
  if bool_decide (u = updatedate_url) then Ret (VObj Sample.lastUpdate)
  else if bool_decide (u = profile_url) then Ret (VObj Sample.profile)
  else Ret v.

(** A sign-in that is refused. *)
Definition refused : response := {| status := 401; getSetCookie := [] |}.

(** Statistics of a station. *)
Definition stats : value := VObj {[ "temp_current" := VNum (Fin 5) ]}.

(** The reply of the listing endpoints. *)
Definition listing : value :=
  VObj {[ "devices" := VArr [device]; "favorites" := VArr [] ]}.

(** Values whose cloud-base height is exactly 150 in binary64 (the exact
    product is slightly below 150): no rain, 1020 hPa. *)
Definition at_threshold : value :=
  VObj (<["temp" := VNum (Fin (1202983398829096 # 1000000000000000))]>
          (<["dew" := VNum (Fin 0)]> (<["bar" := VNum (Fin 1020)]> Sample.values))).

(** The same values without their pressure. *)
Definition at_threshold_no_bar : value :=
  VObj (<["temp" := VNum (Fin (1202983398829096 # 1000000000000000))]>
          (<["dew" := VNum (Fin 0)]> (delete "bar" Sample.values))).

(** The values of [Sample] without their rain rate. *)
Definition no_rainrate : value := VObj (delete "rainrate" Sample.values).

(** The environments of the examples. *)
Definition serving (v : value) : Utils := env (always v) (Ret refused) parse.
Definition unreachable : Utils := env down (Throw VTypeError) parse.
Definition observing (v : value) : Utils := env (station v) (Ret Sample.signin_ok) parse.

(** The station of [Sample] whose last-update endpoint answers [null]. *)
Definition null_update : Utils :=
  env (λ u _, if bool_decide (u = updatedate_url) then Ret VNull
              else if bool_decide (u = profile_url) then Ret (VObj Sample.profile)
              else Ret (VObj Sample.values))
      (Ret Sample.signin_ok) parse.

(** The report of [observing v]. *)
Definition report_of (v : value) : value :=
  settle (@weatherReport (observing v) v (VObj Sample.lastUpdate) (VObj Sample.profile)).

End Lab.

(** ** Properties *)

(** *** Numbers *)

Module NumFacts.

(** The order of two numbers, seen from the other side. *)
Lemma compare_opp (a b : num) : SFcompare b a = CompOpp <$> SFcompare a b.
Proof.
  destruct a as [[]|[]| |[] ma ea], b as [[]|[]| |[] mb eb]; simpl; try done;
    change (Pos.compare_cont Eq ?x ?y) with (Pos.compare x y);
    rewrite (Z.compare_antisym ea eb), (Pos.compare_antisym ma mb);
    destruct (ea ?= eb)%Z; simpl; try done;
    by destruct (ma ?= mb)%positive.
Qed.

(** The order of two finite numbers of the same sign is that of their
    exponents, then of their mantissas. *)
Lemma lex_le (ea eb : Z) (ma mb : positive) :
  match (ea ?= eb)%Z with
  | Lt => Lt
  | Gt => Gt
  | Eq => Pos.compare_cont Eq ma mb
  end ≠ Gt
  ↔ (ea < eb)%Z ∨ (ea = eb ∧ (ma ≤ mb)%positive).
Proof.
  change (Pos.compare_cont Eq ma mb) with (Pos.compare ma mb).
  destruct (Z.compare_spec ea eb); [|split; [lia|done]|split; [done|lia]].
  destruct (Pos.compare_spec ma mb); split; try done; try lia.
Qed.

Lemma lex_ge (ea eb : Z) (ma mb : positive) :
  match (ea ?= eb)%Z with
  | Lt => Gt
  | Gt => Lt
  | Eq => CompOpp (Pos.compare_cont Eq ma mb)
  end ≠ Gt
  ↔ (eb < ea)%Z ∨ (ea = eb ∧ (mb ≤ ma)%positive).
Proof.
  change (Pos.compare_cont Eq ma mb) with (Pos.compare ma mb).
  destruct (Z.compare_spec ea eb); [|split; [done|lia]|split; [lia|done]].
  destruct (Pos.compare_spec ma mb); simpl; split; try done; try lia.
Qed.

Lemma leb_le (a b : num) : Num.leb a b = true ↔ Num.le a b.
Proof.
  unfold Num.leb, SFleb, Num.le. destruct (SFcompare a b) as [[]|]; split; try done; eauto;
    try (by intros (c & [= <-] & ?)); by intros (c & ? & ?).
Qed.

Lemma le_trans (a b c : num) : Num.le a b → Num.le b c → Num.le a c.
Proof.
  intros (c1 & H1 & N1) (c2 & H2 & N2).
  destruct a as [[]|[]| |[] ma ea], b as [[]|[]| |[] mb eb], c as [[]|[]| |[] mc ec];
    simpl in *; simplify_eq; try done; try (by eexists);
    (eexists; split; [done|]);
    first [ apply lex_le; apply lex_le in N1, N2; lia
          | apply lex_ge; apply lex_ge in N1, N2; lia ].
Qed.

Lemma le_total (a b : num) : a ≠ NaN → b ≠ NaN → Num.le a b ∨ Num.le b a.
Proof.
  intros Ha Hb.
  destruct a as [[]|[]| |[] ma ea], b as [[]|[]| |[] mb eb];
    try done; try (left; by eexists); try (right; by eexists).
  - destruct (decide ((ea < eb)%Z ∨ (ea = eb ∧ (ma ≤ mb)%positive))) as [Hl|Hl].
    + right. eexists. split; [done|]. apply lex_ge. lia.
    + left. eexists. split; [done|]. apply lex_ge. lia.
  - destruct (decide ((ea < eb)%Z ∨ (ea = eb ∧ (ma ≤ mb)%positive))) as [Hl|Hl].
    + left. eexists. split; [done|]. by apply lex_le.
    + right. eexists. split; [done|]. apply lex_le. lia.
Qed.

Lemma le_not_nan (a b : num) : Num.le a b → a ≠ NaN ∧ b ≠ NaN.
Proof. intros (c & Hc & _). by destruct a, b. Qed.

(** [a < b] is false exactly when [a] or [b] is [NaN] or [b <= a]. *)
Lemma ltb_false (a b : num) : Num.ltb a b = false ↔ a = NaN ∨ b = NaN ∨ Num.le b a.
Proof.
  unfold Num.ltb, SFltb, Num.le. rewrite (compare_opp a b).
  destruct a as [[]|[]| |[] ma ea], b as [[]|[]| |[] mb eb]; simpl;
    try (split; [intros _|done]; first [by left | by right; left | right; right; by eexists]);
    try (split; [done|]; by intros [|[|(c & [= <-] & ?)]]).
  all: destruct (match (ea ?= eb)%Z with Lt => _ | _ => _ end) eqn:Hc; simpl;
    (split; [intros ?; try done; right; right; by eexists
            | intros [|[|(c & [= <-] & ?)]]; done]).
Qed.

Lemma leb_ltb (a b : num) : Num.leb a b = true → Num.ltb b a = false.
Proof. intros H%leb_le. apply ltb_false. by right; right. Qed.

Lemma geb_ltb (a b : num) : Num.geb a b = true → Num.ltb a b = false.
Proof. apply leb_ltb. Qed.

(** Not below [c], hence not below any smaller bound [b]. *)
Lemma not_ltb_weaken (a b c : num) :
  Num.leb b c = true → Num.ltb a c = false → Num.ltb a b = false.
Proof.
  intros Hbc%leb_le [Ha|[Hc|Hca]]%ltb_false; apply ltb_false.
  - by left.
  - by destruct (le_not_nan _ _ Hbc).
  - right; right. by apply (le_trans b c a).
Qed.

Lemma ltb_le (a b : num) : Num.ltb a b = true → Num.le a b.
Proof.
  unfold Num.ltb, SFltb, Num.le. destruct (SFcompare a b) as [[]|]; try done. eauto.
Qed.

(** Above [c], hence not below any smaller bound [b]. *)
Lemma gtb_not_ltb (a b c : num) :
  Num.leb b c = true → Num.gtb a c = true → Num.ltb a b = false.
Proof.
  intros Hbc%leb_le Hca%ltb_le. apply ltb_false. right; right.
  by apply (le_trans b c a).
Qed.

Lemma gtb_not_eqb (a b : num) : Num.gtb a b = true → Num.eqb a b = false.
Proof.
  unfold Num.gtb, Num.ltb, Num.eqb, SFltb, SFeqb. rewrite (compare_opp a b).
  by destruct (SFcompare a b) as [[]|].
Qed.

(** [Math.max(0, x)] by the position of [x]: [x] itself above zero, zero
    at or below zero, [NaN] for [NaN]. *)
Lemma max_zero_cases (p : num) :
  (Num.gtb p (Fin 0) = true → Num.max (Fin 0) p = p)
  ∧ (Num.leb p (Fin 0) = true → Num.max (Fin 0) p = Fin 0)
  ∧ (p = NaN → Num.max (Fin 0) p = NaN).
Proof.
  assert (Fin 0 = S754_zero false) as -> by (by vm_compute).
  destruct p as [[]|[]| |[] m e]; repeat split; try done.
Qed.

(** [Math.max(0, x)] is never below zero. *)
Lemma max_zero_not_negative (a : num) : Num.ltb (Num.max (Fin 0) a) (Fin 0) = false.
Proof. by destruct a as [[]|[]| |[] m e]. Qed.

End NumFacts.

(** *** Running the operations *)

Section Properties.
Context `{Utils}.

(** The regular expression test, spelled out: ten characters, each one of
    [0] to [9]. *)
Lemma ten_digits_spec (id : string) :
  ten_digits id = true
  ↔ String.length id = 10%nat
    ∧ ∀ c, In c (String.list_ascii_of_string id) →
           (48 ≤ Ascii.nat_of_ascii c ≤ 57)%nat.
Proof.
  unfold ten_digits. rewrite andb_true_iff, Nat.eqb_eq, forallb_forall.
  split; intros [Hlen Hall]; (split; [done|]); intros c Hc; specialize (Hall c Hc);
    unfold is_digit in *.
  - apply andb_true_iff in Hall as [?%Nat.leb_le ?%Nat.leb_le]. lia.
  - apply andb_true_iff. split; apply Nat.leb_le; lia.
Qed.

(** A [try] whose handler returns a value always ends in a value: the one
    of the body, or the handler's for what the body threw. *)
Lemma try_catch_returns {S A} (body : M S A) (f : value → A) (s : S) :
  (∃ a s', body s = (Ret a, s') ∧ try_catch body (λ err, mret (f err)) s = (Ret a, s'))
  ∨ (∃ e s', body s = (Throw e, s') ∧ try_catch body (λ err, mret (f err)) s = (Ret (f e), s')).
Proof.
  unfold try_catch.
  destruct (body s) as [[a|e] s'] eqn:Hb.
  - left. by exists a, s'.
  - right. by exists e, s'.
Qed.

Lemma fetchWeather_invalid_id (id : string) (w : world) :
  id = "" ∨ ten_digits id = true →
  fetchWeather id w = (Ret (error_obj InvalidId), w).
Proof.
  intros Hid. unfold fetchWeather, try_catch, fetchWeather_try.
  assert (bool_decide (id = "") || ten_digits id = true) as ->.
  { destruct Hid as [->| ->]; [done | apply orb_true_r]. }
  done.
Qed.

(** With an id that passes step 1 and three replies, [fetchWeather] issues
    exactly the three requests and settles what [weatherReport] makes of
    the payloads. *)
Lemma fetchWeather_run (id : string) (w : world) (data lastUpdate profile : value) :
  valid_id id →
  replies id w data lastUpdate profile →
  fetchWeather id w
  = (Ret (settle (weatherReport data lastUpdate profile)), after_profile id w).
Proof.
  intros [Hne Hten] (Hd & Hu & Hp).
  unfold fetchWeather, try_catch, fetchWeather_try.
  rewrite Hten, bool_decide_eq_false_2 by done. simpl.
  unfold mbind, M_bind, fetchData. simpl.
  fold (after_values id w). rewrite Hd.
  fold (after_update id w). rewrite Hu.
  fold (after_profile id w). rewrite Hp.
  unfold lift. by destruct (weatherReport data lastUpdate profile).
Qed.

Lemma error_obj_not_report (e : value) : ¬ is_report (error_obj e).
Proof.
  unfold is_report, error_obj, js_in.
  rewrite lookup_singleton_eq. rewrite bool_decide_eq_true_2 by eauto. done.
Qed.

(** A settled outcome that is a report comes from a returned report. *)
Lemma settle_report (o : outcome value) :
  is_report (settle o) → o = Ret (settle o).
Proof.
  destruct o as [r|e]; simpl; [done|].
  intros Hr. by apply error_obj_not_report in Hr.
Qed.

(** The markers are all there exactly when the test of lines 20 to 23
    finds nothing missing. *)
Lemma marker_missing_false (data lastUpdate profile : value) :
  has_marker "temp" data → has_marker "update" lastUpdate → has_marker "observer" profile →
  marker_missing data lastUpdate profile = Ret false.
Proof.
  unfold has_marker, marker_missing. by intros -> -> ->.
Qed.

Lemma marker_missing_inv (data lastUpdate profile : value) :
  marker_missing data lastUpdate profile = Ret false →
  has_marker "temp" data ∧ has_marker "update" lastUpdate ∧ has_marker "observer" profile.
Proof.
  unfold has_marker, marker_missing.
  destruct (js_in "temp" data) as [[]|]; simpl; try done.
  destruct (js_in "update" lastUpdate) as [[]|]; simpl; try done.
  destruct (js_in "observer" profile) as [[]|]; simpl; try done.
Qed.

(** On objects, a marker that is not there makes the test true. *)
Lemma marker_missing_true (data lastUpdate profile : value) :
  is_object data = true → is_object lastUpdate = true → is_object profile = true →
  ¬ (has_marker "temp" data ∧ has_marker "update" lastUpdate ∧ has_marker "observer" profile) →
  marker_missing data lastUpdate profile = Ret true.
Proof.
  intros Hd Hu Hp Hno.
  assert (∀ k v, is_object v = true → ∃ b, js_in k v = Ret b) as Hin.
  { intros k [] ?; simpl in *; try done; eauto. }
  destruct (Hin "temp" data Hd) as [t Ht].
  destruct (Hin "update" lastUpdate Hu) as [u Hu'].
  destruct (Hin "observer" profile Hp) as [o Ho].
  unfold has_marker, marker_missing in *. rewrite Ht, Hu', Ho in *.
  destruct t, u, o; simpl; try done. by destruct Hno.
Qed.

(** A report is returned only when no marker is missing and the data are
    valid, and then it is the object of lines 59 to 77. *)
Lemma weatherReport_inv (data lastUpdate profile r : value) :
  weatherReport data lastUpdate profile = Ret r →
  marker_missing data lastUpdate profile = Ret false
  ∧ invalid_data data = false
  ∧ r = VObj {[
      "weather" := VObj (
        <["feel" := feel data]>
          (<["weatherAvg" := VStr (weatherAvg data)]>
             (<["cloudsHeight" := VNum (cloudsHeight data)]>
                (delete "epoch" (own_props data)))));
      "update" := VObj (
        <["updateTime" := prop data "epoch"]>
          (<["lastUpdateMinutes" :=
               VNum (Num.round (Num.div (ToNumber (prop lastUpdate "update")) (Fin 60)))]>
             (<["time" := VStr (time_of_day (prop data "epoch"))]> (own_props lastUpdate))));
      "profile" := profile ]}.
Proof.
  unfold weatherReport.
  destruct (marker_missing data lastUpdate profile) as [[]|]; simpl; try done.
  destruct (invalid_data data); simpl; try done.
  by intros [= <-].
Qed.

Lemma reports_inv (id : string) (w : world) (data lastUpdate profile r : value) :
  reports id w data lastUpdate profile r →
  valid_id id ∧ weatherReport data lastUpdate profile = Ret r.
Proof.
  intros (Hrep & Hret & Hr).
  destruct (decide (id = "")) as [->|Hne].
  { rewrite fetchWeather_invalid_id in Hret by auto. simpl in Hret.
    injection Hret as <-. by apply error_obj_not_report in Hr. }
  destruct (ten_digits id) eqn:Hten.
  { rewrite fetchWeather_invalid_id in Hret by auto. simpl in Hret.
    injection Hret as <-. by apply error_obj_not_report in Hr. }
  split; [done|].
  rewrite (fetchWeather_run id w data lastUpdate profile) in Hret by done.
  simpl in Hret. injection Hret as <-. by apply settle_report.
Qed.

(** The three sections of a report. *)
Lemma report_weather (weather update profile : value) :
  prop (VObj {[ "weather" := weather; "update" := update; "profile" := profile ]}) "weather"
  = weather.
Proof. done. Qed.

Lemma report_update (weather update profile : value) :
  prop (VObj {[ "weather" := weather; "update" := update; "profile" := profile ]}) "update"
  = update.
Proof. done. Qed.

Lemma report_profile (weather update profile : value) :
  prop (VObj {[ "weather" := weather; "update" := update; "profile" := profile ]}) "profile"
  = profile.
Proof. done. Qed.

Lemma string_app_empty (s : string) : (s ++ "")%string = s.
Proof.
  induction s as [|c s IH]; [done|].
  change (String c (s ++ "") = String c s). by f_equal.
Qed.


(** *** The weather report *)

(** The height fails the validity test exactly when it is the sentinel. *)
Lemma cloudsHeight_negative (data : value) :
  Num.ltb (cloudsHeight data) (Fin 0)
  = negb (Num.gtb (ToNumber (prop data "temp")) (Fin (-40))
          && Num.gtb (ToNumber (prop data "dew")) (Fin (-40))).
Proof.
  unfold cloudsHeight.
  destruct (Num.gtb _ _ && Num.gtb _ _); [|done].
  apply NumFacts.max_zero_not_negative.
Qed.

(** C2. When both the temperature and the dew point are above -40, the
    cloud-base height is [max(0, 124.69 * (temp - dew))] in binary64
    arithmetic: the rounded product itself when it is above zero, zero when
    it is zero or below, [NaN] when it is [NaN], and never below zero;
    otherwise the height is the sentinel -1, which is below zero.  When
    the three payloads carry their markers and the temperature or the dew
    point is at most -40, or the pressure or the rain rate is negative, or
    the humidity is below 0 or above 100, [fetchWeather] returns the
    "Invalid data" error, not a report. *)
Theorem cloud_base_and_invalid_data (data : value) :
  let temp := ToNumber (prop data "temp") in
  let dew := ToNumber (prop data "dew") in
  let bar := ToNumber (prop data "bar") in
  let rainrate := ToNumber (prop data "rainrate") in
  let hum := ToNumber (prop data "hum") in
  let product := SFmul 53 1024 (Fin (12469 # 100)) (SFsub 53 1024 temp dew) in
  (Num.gtb temp (Fin (-40)) = true ∧ Num.gtb dew (Fin (-40)) = true →
     cloudsHeight data = Num.max (Fin 0) product
     ∧ (Num.gtb product (Fin 0) = true → cloudsHeight data = product)
     ∧ (Num.leb product (Fin 0) = true → cloudsHeight data = Fin 0)
     ∧ (product = NaN → cloudsHeight data = NaN)
     ∧ Num.ltb (cloudsHeight data) (Fin 0) = false)
  ∧ (¬ (Num.gtb temp (Fin (-40)) = true ∧ Num.gtb dew (Fin (-40)) = true) →
     cloudsHeight data = Fin (-1)
     ∧ Num.ltb (cloudsHeight data) (Fin 0) = true)
  ∧ (∀ (id : string) (w : world) (lastUpdate profile : value),
       valid_id id →
       replies id w data lastUpdate profile →
       has_marker "temp" data →
       has_marker "update" lastUpdate →
       has_marker "observer" profile →
       Num.leb temp (Fin (-40)) = true ∨ Num.leb dew (Fin (-40)) = true
       ∨ Num.ltb bar (Fin 0) = true ∨ Num.ltb rainrate (Fin 0) = true
       ∨ Num.ltb hum (Fin 0) = true ∨ Num.gtb hum (Fin 100) = true →
       fetchWeather id w = (Ret (error_obj InvalidData), after_profile id w)
       ∧ ¬ is_report (error_obj InvalidData)).
Proof.
  intros temp dew bar rainrate hum product.
  assert (Num.leb temp (Fin (-40)) = true ∨ Num.leb dew (Fin (-40)) = true →
          cloudsHeight data = Fin (-1)) as Hcold.
  { unfold cloudsHeight, Num.gtb. fold temp dew.
    intros [Hc%NumFacts.leb_ltb|Hc%NumFacts.leb_ltb]; rewrite Hc; [done|].
    by rewrite andb_false_r. }
  split; [|split].
  - intros [Ht Hd].
    assert (cloudsHeight data = Num.max (Fin 0) product) as ->.
    { unfold cloudsHeight. fold temp dew. by rewrite Ht, Hd. }
    destruct (NumFacts.max_zero_cases product) as (Hgt & Hle & Hnan).
    repeat split; [exact Hgt | exact Hle | exact Hnan
                  | apply NumFacts.max_zero_not_negative].
  - intros Hno.
    assert (cloudsHeight data = Fin (-1)) as ->; [|split; [done | by vm_compute]].
    unfold cloudsHeight. fold temp dew.
    destruct (Num.gtb temp (Fin (-40))), (Num.gtb dew (Fin (-40))); try done.
    by destruct Hno.
  - intros id w lastUpdate profile Hid Hrep Ht Hu Ho Hbad.
    split; [|apply error_obj_not_report].
    rewrite (fetchWeather_run id w data lastUpdate profile) by done.
    unfold weatherReport.
    rewrite (marker_missing_false data lastUpdate profile) by done. simpl.
    assert (invalid_data data = true) as ->; [|done].
    unfold invalid_data. fold bar rainrate hum.
    destruct Hbad as [Hc|[Hc|[Hb|[Hr|[Hh|Hh]]]]].
    + rewrite Hcold by auto. simpl. by rewrite !orb_true_r.
    + rewrite Hcold by auto. simpl. by rewrite !orb_true_r.
    + by rewrite Hb.
    + rewrite Hr. by rewrite !orb_true_r.
    + rewrite Hh. by rewrite !orb_true_r.
    + rewrite Hh. by rewrite !orb_true_r.
Qed.

(** C3. In a report the condition label is, when the rain rate equals 0,
    the pressure label ([cloud] below 1005, [change] below 1010, [few]
    below 1015, [clear] otherwise) followed by [-fog] when the cloud-base
    height is below 150; when the rain rate is above 0 it is [light] below
    2, [moderate] below 15 and [heavy] from 15 on, with no fog suffix.  The
    two branches exclude each other. *)
Theorem condition_label (id : string) (w : world) (data lastUpdate profile r : value) :
  reports id w data lastUpdate profile r →
  let rainrate := prop data "rainrate" in
  let bar := ToNumber (prop data "bar") in
  let fog := if Num.ltb (cloudsHeight data) (Fin 150) then "-fog" else "" in
  ∃ label : string,
    prop (prop r "weather") "weatherAvg" = VStr label
    ∧ (loose_eq_zero rainrate = true →
         (Num.ltb bar (Fin 1005) = true → label = "cloud" ++ fog)
         ∧ (Num.geb bar (Fin 1005) = true → Num.ltb bar (Fin 1010) = true →
              label = "change" ++ fog)
         ∧ (Num.geb bar (Fin 1010) = true → Num.ltb bar (Fin 1015) = true →
              label = "few" ++ fog)
         ∧ (Num.ltb bar (Fin 1015) = false → label = "clear" ++ fog))
    ∧ (Num.gtb (ToNumber rainrate) (Fin 0) = true →
         loose_eq_zero rainrate = false
         ∧ (Num.ltb (ToNumber rainrate) (Fin 2) = true → label = "light")
         ∧ (Num.geb (ToNumber rainrate) (Fin 2) = true →
            Num.ltb (ToNumber rainrate) (Fin 15) = true → label = "moderate")
         ∧ (Num.geb (ToNumber rainrate) (Fin 15) = true → label = "heavy")).
Proof.
  intros [_ Hr]%reports_inv rainrate bar fog.
  apply weatherReport_inv in Hr as (_ & _ & ->).
  exists (weatherAvg data). split.
  { rewrite report_weather. unfold prop.
    rewrite lookup_insert_ne by done. by rewrite lookup_insert_eq. }
  assert (∀ l : string,
            (if Num.ltb (cloudsHeight data) (Fin 150) then l ++ "-fog" else l) = l ++ fog)
    as Hfog.
  { intros l. unfold fog. destruct (Num.ltb _ _); [done|]. by rewrite string_app_empty. }
  split.
  - intros Hz. unfold weatherAvg. fold rainrate bar. rewrite Hz, Hfog.
    repeat split.
    + by intros ->.
    + intros H5%NumFacts.geb_ltb H10. by rewrite H5, H10.
    + intros H10%NumFacts.geb_ltb H15.
      assert (Num.ltb bar (Fin 1005) = false) as ->
        by (apply (NumFacts.not_ltb_weaken bar (Fin 1005) (Fin 1010)); [by vm_compute | done]).
      by rewrite H10, H15.
    + intros H15.
      assert (Num.ltb bar (Fin 1005) = false) as ->
        by (apply (NumFacts.not_ltb_weaken bar (Fin 1005) (Fin 1015)); [by vm_compute | done]).
      assert (Num.ltb bar (Fin 1010) = false) as ->
        by (apply (NumFacts.not_ltb_weaken bar (Fin 1010) (Fin 1015)); [by vm_compute | done]).
      by rewrite H15.
  - intros Hpos.
    assert (loose_eq_zero rainrate = false) as Hz.
    { unfold loose_eq_zero.
      destruct rainrate; try done; by apply NumFacts.gtb_not_eqb. }
    split; [done|]. unfold weatherAvg. fold rainrate. rewrite Hz.
    repeat split.
    + by intros ->.
    + intros H2%NumFacts.geb_ltb H15. by rewrite H2, H15.
    + intros H15%NumFacts.geb_ltb.
      assert (Num.ltb (ToNumber rainrate) (Fin 2) = false) as ->
        by (apply (NumFacts.not_ltb_weaken (ToNumber rainrate) (Fin 2) (Fin 15)); [by vm_compute | done]).
      by rewrite H15.
Qed.

(** C4. In a report the weather section has no [epoch] field, the update
    section carries the epoch of the values payload unchanged as
    [updateTime] and [round(update / 60)] as [lastUpdateMinutes], and the
    profile section is the profile payload. *)
Theorem report_sections_frame (id : string) (w : world) (data lastUpdate profile r : value) :
  reports id w data lastUpdate profile r →
  (∃ weather update : gmap string value,
     prop r "weather" = VObj weather
     ∧ weather !! "epoch" = None
     ∧ prop r "update" = VObj update
     ∧ update !! "updateTime" = Some (prop data "epoch")
     ∧ update !! "lastUpdateMinutes"
       = Some (VNum (Num.round (Num.div (ToNumber (prop lastUpdate "update")) (Fin 60)))))
  ∧ prop r "profile" = profile.
Proof.
  intros [_ Hr]%reports_inv.
  apply weatherReport_inv in Hr as (_ & _ & ->).
  split; [|apply report_profile].
  rewrite report_weather, report_update.
  eexists _, _. split; [done|]. split; [|split; [done|split]].
  - rewrite !lookup_insert_ne by done. apply lookup_delete_eq.
  - apply lookup_insert_eq.
  - rewrite lookup_insert_ne by done. apply lookup_insert_eq.
Qed.

(** When a marker field ([temp] in the values, [update] in the last
    update, [observer] in the profile) is missing from the payloads that
    were fetched, [fetchWeather] returns an error value and never a report;
    for payloads that are JSON objects or arrays that error is "Failed to
    fetch". *)
Lemma missing_marker_fails (id : string) (w : world) (data lastUpdate profile : value) :
  replies id w data lastUpdate profile →
  ¬ (has_marker "temp" data ∧ has_marker "update" lastUpdate
     ∧ has_marker "observer" profile) →
  (∃ err, (fetchWeather id w).1 = Ret (error_obj err) ∧ ¬ is_report (error_obj err))
  ∧ (valid_id id →
     is_object data = true → is_object lastUpdate = true → is_object profile = true →
     fetchWeather id w = (Ret (error_obj FetchFailed), after_profile id w)).
Proof.
  intros Hrep Hno. split.
  - destruct (decide (id = "")) as [->|Hne].
    { exists InvalidId. rewrite fetchWeather_invalid_id by auto.
      split; [done | apply error_obj_not_report]. }
    destruct (ten_digits id) eqn:Hten.
    { exists InvalidId. rewrite fetchWeather_invalid_id by auto.
      split; [done | apply error_obj_not_report]. }
    rewrite (fetchWeather_run id w data lastUpdate profile) by done. simpl.
    destruct (weatherReport data lastUpdate profile) as [r|e] eqn:Hw.
    + apply weatherReport_inv in Hw as (Hm%marker_missing_inv & _). done.
    + exists e. split; [done | apply error_obj_not_report].
  - intros Hid Hd Hu Hp.
    rewrite (fetchWeather_run id w data lastUpdate profile) by done.
    unfold weatherReport. by rewrite marker_missing_true.
Qed.

(** C6. An id that is empty, or that is exactly ten digits, makes
    [fetchWeather] return the "invalid ID" error at once: the world is
    left as it was, no request is issued. *)
Theorem invalid_id_fails_without_request (id : string) (w : world) :
  id = "" ∨ ten_digits id = true →
  fetchWeather id w = (Ret (error_obj InvalidId), w)
  ∧ trace (fetchWeather id w).2 = trace w.
Proof.
  intros Hid. by rewrite fetchWeather_invalid_id.
Qed.

(** C9. In a report the perceived temperature is the wind chill of the
    temperature and the wind speed when the temperature is below 10, the
    heat index of the temperature and the humidity when it is above 26,
    and the temperature itself otherwise; at 18 it is 18. *)
Theorem feel_by_range (id : string) (w : world) (data lastUpdate profile r : value) :
  reports id w data lastUpdate profile r →
  let temp := prop data "temp" in
  let felt := prop (prop r "weather") "feel" in
  (Num.ltb (ToNumber temp) (Fin 10) = true → felt = chillFn temp (prop data "wspd"))
  ∧ (Num.gtb (ToNumber temp) (Fin 26) = true → felt = heatFn temp (prop data "hum"))
  ∧ (Num.ltb (ToNumber temp) (Fin 10) = false →
     Num.gtb (ToNumber temp) (Fin 26) = false → felt = temp)
  ∧ (temp = VNum (Fin 18) → felt = VNum (Fin 18)).
Proof.
  intros [_ Hr]%reports_inv temp felt.
  apply weatherReport_inv in Hr as (_ & _ & ->).
  assert (felt = feel data) as ->.
  { unfold felt. rewrite report_weather. unfold prop. by rewrite lookup_insert_eq. }
  unfold feel. fold temp. repeat split.
  - by intros ->.
  - intros H26.
    assert (Num.ltb (ToNumber temp) (Fin 10) = false) as ->
      by (apply (NumFacts.gtb_not_ltb (ToNumber temp) (Fin 10) (Fin 26)); [by vm_compute | done]).
    by rewrite H26.
  - by intros -> ->.
  - by intros ->.
Qed.


(** *** The session gate, the ranking and the login *)

(** C7. With an empty cookie set, [getStationStatus] and [getOwn] return
    the "Session required!" error and leave the world as it was: no
    request is issued. *)
Theorem session_required (id : string) (w : world) :
  cookies (store w) = [] →
  getStationStatus id w = (Ret (error_obj SessionRequired), w)
  ∧ getOwn w = (Ret (error_obj SessionRequired), w)
  ∧ trace (getStationStatus id w).2 = trace w
  ∧ trace (getOwn w).2 = trace w.
Proof.
  intros Hc.
  assert (getStationStatus id w = (Ret (error_obj SessionRequired), w)) as Hs.
  { unfold getStationStatus, try_catch, getStationStatus_try, mbind, M_bind, getCookie.
    simpl. by rewrite Hc. }
  assert (getOwn w = (Ret (error_obj SessionRequired), w)) as Ho.
  { unfold getOwn, try_catch, getOwn_try, mbind, M_bind, getCookie.
    simpl. by rewrite Hc. }
  by rewrite Hs, Ho.
Qed.

(** C8, as the code has it. [getTop] for the popular ranking without a
    period returns the "Period required" error after its local [url] has
    received the base URL, before the period segment is appended, and with
    nothing logged and no request issued. *)
Theorem popular_needs_period (countryCode : string) (w : world) :
  getTop_run popular countryCode None w
  = (Ret (error_obj PeriodRequired),
     {| url := Some (ranking_url popular countryCode); top_world := w |})
  ∧ getTop popular countryCode None w = (Ret (error_obj PeriodRequired), w).
Proof.
  assert (getTop_run popular countryCode None w
          = (Ret (error_obj PeriodRequired),
             {| url := Some (ranking_url popular countryCode); top_world := w |})) as Hrun.
  { done. }
  split; [done|]. unfold getTop. by rewrite Hrun.
Qed.

(** The call [login] makes once the sign-in answered 302. *)
Lemma login_redirected (mail password : string) (storeCredentials : option bool)
    (w : world) (resp : response) :
  fetch_reply w signin_url (signin_request mail password) = Ret resp →
  status resp = 302%Z →
  let kept := if default false storeCredentials then (mail, password) else ("", "") in
  login mail password storeCredentials w
  = call_setCookies (split "; " (join "; " (getSetCookie resp))) kept.1 kept.2
      (record_event (Fetch signin_url (signin_request mail password)) w).
Proof.
  intros Hf Hs kept.
  unfold login, mbind, M_bind, fetch. simpl. rewrite Hf, Hs. simpl.
  fold kept. unfold call_setCookies. simpl.
  by destruct (setCookies _ _ _ _) as [[[]|e] st].
Qed.


(** *** Errors as values *)

(** Closes a goal on the result of a [try] with a returning handler. *)
Ltac returns_by_try_catch :=
  match goal with
  | |- context [try_catch ?body (λ err, mret (@?f err)) ?s] =>
      destruct (try_catch_returns body f s)
        as [(? & ? & _ & Hr)|(? & ? & _ & Hr)]; rewrite Hr; eauto
  end.

(** The six queries always return: the value of the body of their [try],
    or what the body threw, wrapped ([{ error }], and [[{ error }]] for
    [getNearest]). *)
Lemma queries_never_raise (w : world) :
  (∀ id, ∃ v w', fetchWeather id w = (Ret v, w'))
  ∧ (∀ id, ∃ v w', getStationStatus id w = (Ret v, w'))
  ∧ (∀ id, ∃ v w', getStatistics id w = (Ret v, w'))
  ∧ (∀ lat lon radius, ∃ v w', getNearest lat lon radius w = (Ret v, w'))
  ∧ (∀ d countryCode period, ∃ v w', getTop d countryCode period w = (Ret v, w'))
  ∧ (∃ v w', getOwn w = (Ret v, w')).
Proof.
  repeat split; intros;
    unfold fetchWeather, getStationStatus, getStatistics, getNearest, getTop, getTop_run,
      getOwn;
    returns_by_try_catch.
Qed.

(** What a thrown value becomes at the boundary of a query. *)
Lemma queries_wrap_errors (w : world) (e : value) :
  (∀ id w', fetchWeather_try id w = (Throw e, w') →
     fetchWeather id w = (Ret (error_obj e), w'))
  ∧ (∀ id w', getStationStatus_try id w = (Throw e, w') →
     getStationStatus id w = (Ret (error_obj e), w'))
  ∧ (∀ id w', getStatistics_try id w = (Throw e, w') →
     getStatistics id w = (Ret (error_obj e), w'))
  ∧ (∀ lat lon radius w', getNearest_try lat lon radius w = (Throw e, w') →
     getNearest lat lon radius w = (Ret (VArr [error_obj e]), w'))
  ∧ (∀ d countryCode period f,
       getTop_try d countryCode period {| url := None; top_world := w |} = (Throw e, f) →
       getTop d countryCode period w = (Ret (error_obj e), top_world f))
  ∧ (∀ w', getOwn_try w = (Throw e, w') → getOwn w = (Ret (error_obj e), w')).
Proof.
  repeat split; intros *;
    unfold fetchWeather, getStationStatus, getStatistics, getNearest, getTop, getTop_run,
      getOwn, try_catch; by intros ->.
Qed.

(** [login] has no handler: a rejection of [fetch] reaches the caller, and
    so does a throw of [setCookies]; otherwise [login] returns a boolean,
    [false] when the status is not 302 or [setCookies] reports [false]. *)
Lemma login_outcomes (mail password : string) (storeCredentials : option bool) (w : world) :
  let w1 := record_event (Fetch signin_url (signin_request mail password)) w in
  (∀ e, fetch_reply w signin_url (signin_request mail password) = Throw e →
     login mail password storeCredentials w = (Throw e, w1))
  ∧ (∀ resp, fetch_reply w signin_url (signin_request mail password) = Ret resp →
     status resp ≠ 302%Z →
     login mail password storeCredentials w = (Ret false, w1)).
Proof.
  intros w1. split.
  - intros e He. unfold login, mbind, M_bind, fetch. simpl. by rewrite He.
  - intros resp Hr Hs. unfold login, mbind, M_bind, fetch. simpl. rewrite Hr.
    apply Z.eqb_neq in Hs. by rewrite Hs.
Qed.

End Properties.

(** ** The properties on the concrete environment *)

(** The report of a station of [Lab], once it is accepted. *)
Lemma lab_reports (v : value) :
  @weatherReport (Lab.observing v) v (VObj Sample.lastUpdate) (VObj Sample.profile) = Ret (Lab.report_of v) →
  @reports (Lab.observing v) "d1234" Sample.w0 v (VObj Sample.lastUpdate) (VObj Sample.profile) (Lab.report_of v).
Proof.
  intros Hr.
  assert (@replies (Lab.observing v) "d1234" Sample.w0 v (VObj Sample.lastUpdate) (VObj Sample.profile)) as Hrep.
  { by vm_compute. }
  split; [done|].
  rewrite (@fetchWeather_run (Lab.observing v) "d1234" Sample.w0 v (VObj Sample.lastUpdate) (VObj Sample.profile))
    by (done || by vm_compute).
  simpl. split; [done|].
  unfold Lab.report_of. rewrite Hr. simpl.
  apply (@weatherReport_inv (Lab.observing v)) in Hr as (_ & _ & ->). done.
Qed.

Section OnSample.
Import Sample.

Example ten_digits_examples :
  ten_digits "1234567890" = true
  ∧ ten_digits "123456789" = false
  ∧ ten_digits "12345678901" = false
  ∧ ten_digits "123456789a" = false
  ∧ ten_digits "d1234" = false.
Proof. by vm_compute. Qed.

Example split_join_example :
  split "; " (join "; " ["sid=42; Path=/"; "lang=en"]) = ["sid=42"; "Path=/"; "lang=en"]
  ∧ split "; " (join "; " []) = [""].
Proof. by vm_compute. Qed.

Lemma store_cookies_remembers : @remembers_credentials online.
Proof.
  intros raw mail password s s'. simpl. unfold store_cookies.
  destruct (omap parse_cookie raw); [done|]. by intros [= <-].
Qed.

Lemma sample_replies :
  replies "d1234" w0 (VObj values) (VObj lastUpdate) (VObj profile).
Proof. by vm_compute. Qed.

Lemma sample_reports :
  reports "d1234" w0 (VObj values) (VObj lastUpdate) (VObj profile) report.
Proof. split; [apply sample_replies|]. by vm_compute. Qed.

(** C1, at a failing input: with the network down, [login] does not
    return [false]; the rejection of [fetch] reaches the caller. *)
Theorem login_raises_when_fetch_rejects :
  @login offline "a@b" "pw" None w_remembered
  = (Throw VTypeError,
     record_event (Fetch signin_url (signin_request "a@b" "pw")) w_remembered).
Proof. by vm_compute. Qed.

Lemma cloud_base_and_invalid_data_witness :
  cloudsHeight (VObj warm) = S754_finite false 7677493872573808 (-43)
  ∧ cloudsHeight (VObj damp) = S754_zero false
  ∧ cloudsHeight (VObj frozen) = Fin (-1)
  ∧ fetchWeather "cold" w0 = (Ret (error_obj InvalidData), after_profile "cold" w0).
Proof.
  destruct (cloud_base_and_invalid_data (VObj warm)) as (Hwarm & _ & _).
  destruct (cloud_base_and_invalid_data (VObj damp)) as (Hdamp & _ & _).
  destruct (cloud_base_and_invalid_data (VObj frozen)) as (_ & Hcold & Hbad).
  split; [|split; [|split]].
  - destruct Hwarm as (_ & -> & _); by vm_compute.
  - destruct Hdamp as (_ & _ & -> & _); by vm_compute.
  - apply Hcold. vm_compute. by intros [? _].
  - apply (Hbad "cold" w0 (VObj lastUpdate) (VObj profile)); try by vm_compute.
    left. by vm_compute.
Defined.

Lemma condition_label_witness :
  prop (prop report "weather") "weatherAvg" = VStr "few"
  ∧ prop (prop (Lab.report_of Lab.at_threshold) "weather") "weatherAvg" = VStr "clear".
Proof.
  destruct (condition_label "d1234" w0 (VObj values) (VObj lastUpdate) (VObj profile)
              report sample_reports) as (label & -> & Hdry & _).
  destruct (@condition_label (Lab.observing Lab.at_threshold) "d1234" w0 Lab.at_threshold
              (VObj lastUpdate) (VObj profile) (Lab.report_of Lab.at_threshold))
    as (edge & -> & Hedge & _).
  { apply lab_reports. by vm_compute. }
  split; f_equal.
  - apply Hdry; by vm_compute.
  - apply Hedge; by vm_compute.
Defined.

Lemma report_sections_frame_witness :
  prop report "profile" = VObj profile
  ∧ prop (prop report "update") "updateTime" = VNum (Fin 1700000000)
  ∧ prop (prop report "update") "lastUpdateMinutes" = VNum (Fin 2)
  ∧ prop (prop report "weather") "epoch" = VUndef.
Proof.
  destruct (report_sections_frame "d1234" w0 (VObj values) (VObj lastUpdate) (VObj profile)
              report sample_reports) as ((weather & update & -> & Hw & -> & Ht & Hm) & Hp).
  unfold prop at 2 3 4. rewrite Hw, Ht, Hm. split; [done|]. by vm_compute.
Defined.

Lemma missing_marker_fails_witness :
  fetchWeather "gone" w0 = (Ret (error_obj FetchFailed), after_profile "gone" w0).
Proof.
  apply (missing_marker_fails "gone" w0 (VObj values) (VObj lastUpdate) (VObj ∅));
    try by vm_compute.
  intros (_ & _ & Ho). by vm_compute in Ho.
Defined.

Lemma invalid_id_fails_without_request_witness :
  fetchWeather "1234567890" w0 = (Ret (error_obj InvalidId), w0)
  ∧ trace (fetchWeather "1234567890" w0).2 = trace w0.
Proof.
  apply invalid_id_fails_without_request. right. by vm_compute.
Defined.

Lemma session_required_witness :
  getStationStatus "d1234" w0 = (Ret (error_obj SessionRequired), w0)
  ∧ getOwn w0 = (Ret (error_obj SessionRequired), w0).
Proof.
  destruct (session_required "d1234" w0) as (Hs & Ho & _); [reflexivity|]. by split.
Defined.

(** C8, as the claim states it, fails: when [getTop] reports the missing
    period, its local [url] already holds the base URL. *)
Lemma popular_builds_url_first : ¬ fails_before_any_url popular "FR" None w0.
Proof. unfold fails_before_any_url. by vm_compute. Qed.

Lemma feel_by_range_witness :
  prop (prop report "weather") "feel" = chillFn (VNum (Fin 5)) (VNum (Fin 4)).
Proof.
  destruct (feel_by_range "d1234" w0 (VObj values) (VObj lastUpdate) (VObj profile)
              report sample_reports) as (Hchill & _).
  apply Hchill. by vm_compute.
Defined.



(** C5, at a failing input: the values carry [temp] and the last-update
    endpoint answers [null]; [fetchWeather] returns the [TypeError] of
    ["update" in null], not the "Failed to fetch" error, where
    [getStatistics] on the same answer returns "Failed to fetch". *)
Theorem null_payload_is_not_fetch_failed :
  @fetchWeather Lab.null_update "d1234" w0
  = (Ret (error_obj VTypeError), after_profile "d1234" w0)
  ∧ (@getStatistics Lab.null_update "d1234" w0).1 = Ret (error_obj FetchFailed).
Proof. by vm_compute. Qed.

End OnSample.

(** ** Further properties *)

(** *** Splitting and joining *)

Lemma string_app_cons (c : Ascii.ascii) (s t : string) :
  (String c s ++ t)%string = String c (s ++ t).
Proof. done. Qed.

Lemma string_app_assoc (s t u : string) : ((s ++ t) ++ u)%string = (s ++ (t ++ u))%string.
Proof.
  induction s as [|c s IH]; [done|].
  rewrite !string_app_cons. by f_equal.
Qed.

Lemma split_from_not_nil (sep : string) (skip : nat) (cur s : string) :
  split_from sep skip cur s ≠ [].
Proof.
  revert skip cur. induction s as [|c s IH]; intros skip cur; [done|].
  cbn [split_from]. destruct skip; [|apply IH].
  destruct (String.prefix sep (String c s)); [done | apply IH].
Qed.

Lemma join_cons (sep x : string) (l : list string) :
  l ≠ [] → join sep (x :: l) = (x ++ sep ++ join sep l)%string.
Proof. by destruct l. Qed.

Lemma prefix_drop (r s : string) :
  String.prefix r s = true → (r ++ string_drop (String.length r) s)%string = s.
Proof.
  revert s. induction r as [|a r IH]; intros [|b s]; simpl; try done.
  destruct (Ascii.ascii_dec a b) as [->|]; [|done].
  intros Hp. rewrite string_app_cons. f_equal. by apply IH.
Qed.

Lemma join_split_from (sep : string) (skip : nat) (cur s : string) :
  sep ≠ "" →
  join sep (split_from sep skip cur s) = (cur ++ string_drop skip s)%string.
Proof.
  intros Hsep. revert skip cur.
  induction s as [|c s IH]; intros skip cur.
  { destruct skip; simpl; by rewrite string_app_empty. }
  destruct skip as [|k]; [|apply IH].
  cbn [split_from string_drop].
  destruct (String.prefix sep (String c s)) eqn:Hp.
  - rewrite join_cons by apply split_from_not_nil. rewrite IH.
    destruct sep as [|a r]; [done|].
    cbn [String.length]. rewrite Nat.sub_1_r. cbn [Nat.pred].
    f_equal. exact (prefix_drop _ _ Hp).
  - rewrite IH. cbn [string_drop].
    destruct s; by rewrite string_app_assoc.
Qed.

Section Further.
Context `{Utils}.

(** *** The login *)

(** X1. Once the sign-in answered 302, [setCookies] receives the pieces of
    the Set-Cookie headers joined and split again on "; ": the list is
    never empty (without any header it is the single empty string), and
    joined with "; " it gives back the joined headers. *)
Theorem login_cookie_pieces (mail password : string) (storeCredentials : option bool)
    (w : world) (resp : response) :
  fetch_reply w signin_url (signin_request mail password) = Ret resp →
  status resp = 302%Z →
  let raw := split "; " (join "; " (getSetCookie resp)) in
  let kept := if default false storeCredentials then (mail, password) else ("", "") in
  login mail password storeCredentials w
  = call_setCookies raw kept.1 kept.2
      (record_event (Fetch signin_url (signin_request mail password)) w)
  ∧ raw ≠ []
  ∧ join "; " raw = join "; " (getSetCookie resp)
  ∧ (getSetCookie resp = [] → raw = [""]).
Proof.
  intros Hf Hs raw kept. repeat split.
  - by apply login_redirected.
  - apply split_from_not_nil.
  - unfold raw, split. by rewrite join_split_from.
  - unfold raw. by intros ->.
Qed.

(** X2. When the sign-in answers with a status other than 302, [login]
    returns [false] after its single request: [setCookies] is not called
    and the session store is the one before the call. *)
Theorem login_refused_keeps_session (mail password : string)
    (storeCredentials : option bool) (w : world) (resp : response) :
  fetch_reply w signin_url (signin_request mail password) = Ret resp →
  status resp ≠ 302%Z →
  (login mail password storeCredentials w).1 = Ret false
  ∧ store (login mail password storeCredentials w).2 = store w
  ∧ trace (login mail password storeCredentials w).2
    = (trace w ++ [Fetch signin_url (signin_request mail password)])%list.
Proof.
  intros Hf Hs.
  destruct (login_outcomes mail password storeCredentials w) as [_ Hno].
  by rewrite (Hno resp Hf Hs).
Qed.

(** X3. When the sign-in answers 302, the result of [login] and the new
    session store are those of [setCookies], called on the store before
    the call with the caller's mail and password when [storeCredentials]
    is true: [true] for [true], [false] for [false], and a throw of
    [setCookies] reaches the caller.  The request is recorded either way. *)
Theorem login_opt_in (mail password : string) (w : world) (resp : response) :
  fetch_reply w signin_url (signin_request mail password) = Ret resp →
  status resp = 302%Z →
  let raw := split "; " (join "; " (getSetCookie resp)) in
  (login mail password (Some true) w).1 = (setCookies raw mail password (store w)).1
  ∧ store (login mail password (Some true) w).2 = (setCookies raw mail password (store w)).2
  ∧ trace (login mail password (Some true) w).2
    = (trace w ++ [Fetch signin_url (signin_request mail password)])%list
  ∧ (remembers_credentials →
     (login mail password (Some true) w).1 = Ret true →
     credentials (store (login mail password (Some true) w).2) = Some (mail, password)).
Proof.
  intros Hf Hs raw.
  rewrite (login_redirected mail password (Some true) w resp Hf Hs).
  unfold call_setCookies. simpl. fold raw.
  destruct (setCookies raw mail password (store w)) as [r st] eqn:Hset. simpl.
  repeat split. intros Hrem ->. by apply Hrem in Hset.
Qed.

(** *** The single-request queries *)

(** A value that carries a marker is an object, hence truthy. *)
Lemma has_marker_truthy (k : string) (v : value) :
  js_in k v = Ret true → truthy v = true ∧ is_object v = true.
Proof. by destruct v. Qed.

Lemma js_in_object (k : string) (v : value) :
  is_object v = true → truthy v = true ∧ ∃ b, js_in k v = Ret b.
Proof. destruct v; simpl; try done; eauto. Qed.

Lemma js_in_primitive (k : string) (v : value) :
  is_object v = false → js_in k v = Throw VTypeError.
Proof. by destruct v. Qed.

(** The first element of a non-empty array. *)
Lemma prop_first (first : value) (rest : list value) :
  prop (VArr (first :: rest)) "0" = first.
Proof. done. Qed.

(** X4. [getStatistics] issues its request for any id, without the check
    of [fetchWeather].  A reply that carries [temp_current] is returned as
    it is; a falsy reply, or an object or array without [temp_current],
    gives the "Failed to fetch" error; a truthy primitive gives the
    [TypeError] of the [in] test; a rejection gives its reason.  All
    errors come wrapped as [{ error }]. *)
Theorem getStatistics_outcomes (id : string) (w : world) :
  let w1 := record_event (FetchData stats_url (Some ("code=" ++ id))) w in
  let reply := fetchData_reply w stats_url (Some ("code=" ++ id)) in
  (∀ data, reply = Ret data → has_marker "temp_current" data →
     getStatistics id w = (Ret data, w1))
  ∧ (∀ data, reply = Ret data → truthy data = false →
     getStatistics id w = (Ret (error_obj FetchFailed), w1))
  ∧ (∀ data, reply = Ret data → is_object data = true →
     js_in "temp_current" data = Ret false →
     getStatistics id w = (Ret (error_obj FetchFailed), w1))
  ∧ (∀ data, reply = Ret data → truthy data = true → is_object data = false →
     getStatistics id w = (Ret (error_obj VTypeError), w1))
  ∧ (∀ e, reply = Throw e → getStatistics id w = (Ret (error_obj e), w1)).
Proof.
  intros w1 reply.
  assert (∀ o, reply = o →
            getStatistics id w
            = (Ret (settle (data ← o;
                            bad ← (if negb (truthy data) then Ret true
                                   else t ← js_in "temp_current" data; Ret (negb t));
                            if bad : bool then Throw FetchFailed else Ret data)), w1)) as Hrun.
  { intros o Ho.
    unfold getStatistics, try_catch, getStatistics_try, mbind at 1, M_bind, fetchData. simpl.
    fold stats_url. fold reply. rewrite Ho. fold w1.
    destruct o as [data|e]; [|done]. simpl.
    unfold mbind at 1, M_bind, lift.
    destruct (negb (truthy data)); [done|].
    by destruct (js_in "temp_current" data) as [[]|]. }
  repeat split.
  - intros data Hr Hm. rewrite (Hrun _ Hr). simpl.
    destruct (has_marker_truthy _ _ Hm) as [-> _]. simpl. by rewrite Hm.
  - intros data Hr Hf. rewrite (Hrun _ Hr). simpl. by rewrite Hf.
  - intros data Hr Ho Hno. rewrite (Hrun _ Hr). simpl.
    destruct (js_in_object "temp_current" _ Ho) as [-> _]. simpl. by rewrite Hno.
  - intros data Hr Ht Ho. rewrite (Hrun _ Hr). simpl.
    rewrite Ht. simpl. by rewrite js_in_primitive.
  - intros e Hr. by rewrite (Hrun _ Hr).
Qed.

(** X5. With a session, [getStationStatus] returns the reply as it is when
    it is an array whose first element carries [date].  A reply that is
    not an array gives "Failed to fetch", and so does an array whose first
    element is an object without [date]; the empty array gives the
    [TypeError] of [in] on [undefined], not "Failed to fetch"; a rejection
    gives its reason. *)
Theorem getStationStatus_outcomes (id : string) (w : world) :
  cookies (store w) ≠ [] →
  let w1 := record_event (FetchData devicestats_url (Some ("device=" ++ id))) w in
  let reply := fetchData_reply w devicestats_url (Some ("device=" ++ id)) in
  (∀ first rest, reply = Ret (VArr (first :: rest)) → has_marker "date" first →
     getStationStatus id w = (Ret (VArr (first :: rest)), w1))
  ∧ (reply = Ret (VArr []) →
     getStationStatus id w = (Ret (error_obj VTypeError), w1))
  ∧ (∀ data, reply = Ret data → isArray data = false →
     getStationStatus id w = (Ret (error_obj FetchFailed), w1))
  ∧ (∀ first rest, reply = Ret (VArr (first :: rest)) → is_object first = true →
     js_in "date" first = Ret false →
     getStationStatus id w = (Ret (error_obj FetchFailed), w1))
  ∧ (∀ e, reply = Throw e → getStationStatus id w = (Ret (error_obj e), w1)).
Proof.
  intros Hc w1 reply.
  assert (∀ o, reply = o →
            getStationStatus id w
            = (Ret (settle (data ← o;
                            bad ← (if negb (truthy data) then Ret true
                                   else if negb (isArray data) then Ret true
                                   else d ← js_in "date" (prop data "0"); Ret (negb d));
                            if bad : bool then Throw FetchFailed else Ret data)), w1)) as Hrun.
  { intros o Ho.
    unfold getStationStatus, try_catch, getStationStatus_try, mbind at 1, M_bind, getCookie.
    simpl. destruct (cookies (store w)) as [|c cs]; [done|]. simpl.
    unfold mbind at 1, M_bind, fetchData. simpl.
    fold devicestats_url. fold reply. rewrite Ho. fold w1.
    destruct o as [data|e]; [|done]. simpl.
    unfold mbind at 1, M_bind, lift.
    destruct (negb (truthy data)); [done|].
    destruct (negb (isArray data)); [done|].
    by destruct (js_in "date" (prop data "0")) as [[]|]. }
  repeat split.
  - intros first rest Hr Hm. rewrite (Hrun _ Hr).
    cbn [mbind outcome_bind truthy isArray negb]. rewrite prop_first, Hm. done.
  - intros Hr. by rewrite (Hrun _ Hr).
  - intros data Hr Ha. rewrite (Hrun _ Hr). simpl. rewrite Ha. simpl.
    by destruct (negb (truthy data)).
  - intros first rest Hr Ho Hno. rewrite (Hrun _ Hr).
    cbn [mbind outcome_bind truthy isArray negb]. rewrite prop_first, Hno. done.
  - intros e Hr. by rewrite (Hrun _ Hr).
Qed.

(** X6. [getNearest] hands the [devices] array of the reply to
    [parseDevicesList] with the sort key "distance" and returns its
    result.  Every failure comes back as a one-element array holding
    [{ error }]: "Failed to fetch" for a falsy reply and for an object
    whose [devices] is missing or is not an array, the reason of a
    rejection, and what [parseDevicesList] throws. *)
Theorem getNearest_outcomes (lat lon radius : string + num) (w : world) :
  let w1 := record_event (FetchData (nearest_url lat lon radius) None) w in
  let reply := fetchData_reply w (nearest_url lat lon radius) None in
  (∀ data, reply = Ret data → has_marker "devices" data →
     isArray (prop data "devices") = true →
     getNearest lat lon radius w
     = (Ret (match parseDevicesList (prop data "devices") (Some "distance") with
             | Ret list => list
             | Throw e => nearest_error e
             end), w1))
  ∧ (∀ data, reply = Ret data → truthy data = false →
     getNearest lat lon radius w = (Ret (nearest_error FetchFailed), w1))
  ∧ (∀ data, reply = Ret data → is_object data = true →
     js_in "devices" data = Ret false ∨ isArray (prop data "devices") = false →
     getNearest lat lon radius w = (Ret (nearest_error FetchFailed), w1))
  ∧ (∀ e, reply = Throw e →
     getNearest lat lon radius w = (Ret (nearest_error e), w1)).
Proof.
  intros w1 reply.
  assert (∀ o, reply = o →
            getNearest lat lon radius w
            = (Ret (match (data ← o;
                           bad ← no_devices_array data;
                           if bad : bool then Throw FetchFailed
                           else parseDevicesList (prop data "devices") (Some "distance")) with
                    | Ret list => list
                    | Throw e => nearest_error e
                    end), w1)) as Hrun.
  { intros o Ho.
    unfold getNearest, try_catch, getNearest_try, mbind at 1, M_bind, fetchData. simpl.
    fold (nearest_url lat lon radius). fold reply. rewrite Ho. fold w1.
    destruct o as [data|e]; [|done]. simpl.
    unfold mbind at 1, M_bind, lift.
    destruct (no_devices_array data) as [[]|]; try done. simpl.
    by destruct (parseDevicesList _ _). }
  repeat split.
  - intros data Hr Hm Ha. rewrite (Hrun _ Hr). simpl. unfold no_devices_array.
    destruct (has_marker_truthy _ _ Hm) as [-> _]. simpl. rewrite Hm. simpl.
    by rewrite Ha.
  - intros data Hr Hf. rewrite (Hrun _ Hr). simpl. unfold no_devices_array.
    by rewrite Hf.
  - intros data Hr Ho Hno. rewrite (Hrun _ Hr). simpl. unfold no_devices_array.
    destruct (js_in_object "devices" _ Ho) as [-> [b Hb]]. simpl. rewrite Hb.
    destruct b; simpl; [|done].
    destruct Hno as [Hno| ->]; [congruence|done].
  - intros e Hr. by rewrite (Hrun _ Hr).
Qed.

(** *** The rankings and the own devices *)

(** [getTop] once the period test is passed: the URL is logged, then
    requested, and the reply goes through the test on [devices]. *)
Lemma getTop_requested (d : definer) (countryCode : string) (period : option string)
    (w : world) :
  (d = popular → no_period period = false) →
  let u := top_url d countryCode period in
  let w1 := record_event (Log u) w in
  getTop d countryCode period w
  = (Ret (settle (data ← fetchData_reply w1 u None;
                  bad ← no_devices_array data;
                  if bad : bool then Throw FetchFailed
                  else parseDevicesList (prop data "devices") (Some (top_sort_key d)))),
     record_event (FetchData u None) w1).
Proof.
  intros Hp u w1.
  assert (getTop_run d countryCode period w
          = (Ret (settle (data ← fetchData_reply w1 u None;
                          bad ← no_devices_array data;
                          if bad : bool then Throw FetchFailed
                          else parseDevicesList (prop data "devices")
                                 (Some (top_sort_key d)))),
             {| url := Some u; top_world := record_event (FetchData u None) w1 |})) as Hrun.
  { unfold getTop_run, try_catch, getTop_try, u, w1.
    destruct d; try rewrite (Hp eq_refl);
      unfold mbind, M_bind, set_url, get_url, console_log, fetchData, lift; simpl;
      (destruct (fetchData_reply _ _ None) as [data|e]; [|done]); simpl;
      (destruct (no_devices_array data) as [[]|]; try done); simpl;
      by destruct (parseDevicesList _ _). }
  unfold getTop. by rewrite Hrun.
Qed.

(** X7. [getTop] logs the URL and then requests that same URL, once: the
    base URL of the ranking, followed by the period segment for the
    popular ranking only.  For the other rankings a period that is given
    is ignored.  An empty period string counts as no period. *)
Theorem getTop_request (d : definer) (countryCode : string) (period : option string)
    (w : world) :
  ((d = popular → no_period period = false) →
   trace (getTop d countryCode period w).2
   = (trace w ++ [Log (top_url d countryCode period);
                  FetchData (top_url d countryCode period) None])%list
   ∧ store (getTop d countryCode period w).2 = store w)
  ∧ (d ≠ popular →
     top_url d countryCode period = ranking_url d countryCode
     ∧ getTop d countryCode period w = getTop d countryCode None w)
  ∧ (d = popular → period = Some "" →
     getTop d countryCode period w = (Ret (error_obj PeriodRequired), w)).
Proof.
  repeat split.
  - rewrite getTop_requested by done. simpl. by rewrite <- app_assoc.
  - by rewrite getTop_requested.
  - by destruct d.
  - rewrite !getTop_requested by (by intros ->). by destruct d.
  - by intros -> ->.
Qed.

(** X8. [getTop] hands the [devices] array of the reply to
    [parseDevicesList] with the sort key "age" for the newest, "views" for
    the popular and "followers" for the followers ranking, and returns its
    result; a falsy reply, or an object whose [devices] is missing or is
    not an array, gives "Failed to fetch"; a rejection and a throw of
    [parseDevicesList] give their reason. *)
Theorem getTop_outcomes (d : definer) (countryCode : string) (period : option string)
    (w : world) :
  (d = popular → no_period period = false) →
  let u := top_url d countryCode period in
  let reply := fetchData_reply (record_event (Log u) w) u None in
  (∀ data, reply = Ret data → has_marker "devices" data →
     isArray (prop data "devices") = true →
     (getTop d countryCode period w).1
     = Ret (settle (parseDevicesList (prop data "devices") (Some (top_sort_key d)))))
  ∧ (∀ data, reply = Ret data → truthy data = false →
     (getTop d countryCode period w).1 = Ret (error_obj FetchFailed))
  ∧ (∀ data, reply = Ret data → is_object data = true →
     js_in "devices" data = Ret false ∨ isArray (prop data "devices") = false →
     (getTop d countryCode period w).1 = Ret (error_obj FetchFailed))
  ∧ (∀ e, reply = Throw e → (getTop d countryCode period w).1 = Ret (error_obj e)).
Proof.
  intros Hp u reply. rewrite getTop_requested by done. fold u. fold reply. simpl.
  repeat split.
  - intros data -> Hm Ha. simpl. unfold no_devices_array.
    destruct (has_marker_truthy _ _ Hm) as [-> _]. simpl. rewrite Hm. simpl.
    by rewrite Ha.
  - intros data -> Hf. simpl. unfold no_devices_array. by rewrite Hf.
  - intros data -> Ho Hno. simpl. unfold no_devices_array.
    destruct (js_in_object "devices" _ Ho) as [-> [b Hb]]. simpl. rewrite Hb.
    destruct b; simpl; [|done].
    destruct Hno as [Hno| ->]; [congruence|done].
  - by intros e ->.
Qed.

(** X9. With a session, [getOwn] parses [devices] and [favorites] of the
    reply, both without a sort key and without testing that they are
    arrays, and returns the two results under the same names; when either
    name is missing from the reply, or the reply is falsy, it gives
    "Failed to fetch"; a rejection and a throw of [parseDevicesList] give
    their reason. *)
Theorem getOwn_outcomes (w : world) :
  cookies (store w) ≠ [] →
  let w1 := record_event (FetchData own_url None) w in
  let reply := fetchData_reply w own_url None in
  (∀ data devices favorites, reply = Ret data →
     has_marker "devices" data → has_marker "favorites" data →
     parseDevicesList (prop data "devices") None = Ret devices →
     parseDevicesList (prop data "favorites") None = Ret favorites →
     getOwn w = (Ret (VObj {[ "devices" := devices; "favorites" := favorites ]}), w1))
  ∧ (∀ data e, reply = Ret data →
     has_marker "devices" data → has_marker "favorites" data →
     parseDevicesList (prop data "devices") None = Throw e
     ∨ (∃ devices, parseDevicesList (prop data "devices") None = Ret devices
        ∧ parseDevicesList (prop data "favorites") None = Throw e) →
     getOwn w = (Ret (error_obj e), w1))
  ∧ (∀ data, reply = Ret data → truthy data = false →
     getOwn w = (Ret (error_obj FetchFailed), w1))
  ∧ (∀ data, reply = Ret data → is_object data = true →
     js_in "devices" data = Ret false ∨ js_in "favorites" data = Ret false →
     getOwn w = (Ret (error_obj FetchFailed), w1))
  ∧ (∀ e, reply = Throw e → getOwn w = (Ret (error_obj e), w1)).
Proof.
  intros Hc w1 reply.
  assert (∀ o, reply = o →
            getOwn w
            = (Ret (settle (data ← o;
                            bad ← (if negb (truthy data) then Ret true
                                   else d ← js_in "devices" data;
                                        if negb d then Ret true
                                        else f ← js_in "favorites" data; Ret (negb f));
                            if bad : bool then Throw FetchFailed else
                            devices ← parseDevicesList (prop data "devices") None;
                            favorites ← parseDevicesList (prop data "favorites") None;
                            Ret (VObj {[ "devices" := devices;
                                         "favorites" := favorites ]}))), w1)) as Hrun.
  { intros o Ho.
    unfold getOwn, try_catch, getOwn_try, mbind at 1, M_bind, getCookie.
    simpl. destruct (cookies (store w)) as [|c cs]; [done|]. simpl.
    unfold mbind at 1, M_bind, fetchData. simpl.
    fold own_url. fold reply. rewrite Ho. fold w1.
    destruct o as [data|e]; [|done]. simpl.
    unfold mbind at 1, M_bind, lift.
    destruct (negb (truthy data)); [done|].
    destruct (js_in "devices" data) as [[]|]; try done. simpl.
    destruct (js_in "favorites" data) as [[]|]; try done. simpl.
    unfold mbind at 1, M_bind.
    destruct (parseDevicesList (prop data "devices") None); [|done]. simpl.
    unfold mbind at 1, M_bind.
    by destruct (parseDevicesList (prop data "favorites") None). }
  repeat split.
  - intros data devices favorites Hr Hd Hf Hpd Hpf. rewrite (Hrun _ Hr). simpl.
    destruct (has_marker_truthy _ _ Hd) as [-> _]. simpl. rewrite Hd. simpl.
    rewrite Hf. simpl. by rewrite Hpd, Hpf.
  - intros data e Hr Hd Hf Hp. rewrite (Hrun _ Hr). simpl.
    destruct (has_marker_truthy _ _ Hd) as [-> _]. simpl. rewrite Hd. simpl.
    rewrite Hf. simpl.
    destruct Hp as [-> | (devices & -> & ->)]; done.
  - intros data Hr Hf. rewrite (Hrun _ Hr). simpl. by rewrite Hf.
  - intros data Hr Ho Hno. rewrite (Hrun _ Hr). simpl.
    destruct (js_in_object "devices" _ Ho) as [-> [b Hb]].
    destruct (js_in_object "favorites" _ Ho) as [_ [b' Hb']].
    simpl. rewrite Hb. destruct b; simpl; [|done].
    rewrite Hb'. destruct b'; simpl; [|done].
    destruct Hno; congruence.
  - intros e Hr. by rewrite (Hrun _ Hr).
Qed.

(** *** More on the weather report *)

(** X10. The three requests of [fetchWeather] are issued one after the
    other and the first rejection ends the call with its reason: a
    rejected values request is the only request issued, and the payloads
    already fetched are not looked at before all three are there (a
    values payload without [temp] followed by a rejection gives the
    rejection, not "Failed to fetch"). *)
Theorem fetchWeather_stops_at_first_rejection (id : string) (w : world) :
  valid_id id →
  let reply1 := fetchData_reply w (values_url id) None in
  let reply2 := fetchData_reply (after_values id w) updatedate_url (Some ("d=" ++ id)) in
  let reply3 := fetchData_reply (after_update id w) profile_url (Some ("d=" ++ id)) in
  (∀ e, reply1 = Throw e →
     fetchWeather id w = (Ret (error_obj e), after_values id w))
  ∧ (∀ data e, reply1 = Ret data → reply2 = Throw e →
     fetchWeather id w = (Ret (error_obj e), after_update id w))
  ∧ (∀ data lastUpdate e, reply1 = Ret data → reply2 = Ret lastUpdate → reply3 = Throw e →
     fetchWeather id w = (Ret (error_obj e), after_profile id w)).
Proof.
  intros [Hne Hten] reply1 reply2 reply3.
  unfold fetchWeather, try_catch, fetchWeather_try.
  rewrite Hten, bool_decide_eq_false_2 by done. simpl.
  unfold mbind, M_bind, fetchData. simpl.
  fold (after_values id w) reply1.
  repeat split.
  - by intros e ->.
  - intros data e -> He. fold (after_update id w) reply2. by rewrite He.
  - intros data lastUpdate e -> Hu He.
    fold (after_update id w) reply2. rewrite Hu.
    fold (after_profile id w) reply3. by rewrite He.
Qed.

(** X11. The converse of the rejection: with an id that passes step 1,
    the three markers present, temperature and dew point above -40, and no
    comparison of the validity test true (pressure and rain rate not below
    0, humidity not below 0 and not above 100; a missing field makes no
    comparison true), [fetchWeather] returns a report after exactly the
    three requests. *)
Theorem fetchWeather_accepts (id : string) (w : world) (data lastUpdate profile : value) :
  valid_id id →
  replies id w data lastUpdate profile →
  has_marker "temp" data → has_marker "update" lastUpdate → has_marker "observer" profile →
  Num.gtb (ToNumber (prop data "temp")) (Fin (-40)) = true →
  Num.gtb (ToNumber (prop data "dew")) (Fin (-40)) = true →
  Num.ltb (ToNumber (prop data "bar")) (Fin 0) = false →
  Num.ltb (ToNumber (prop data "rainrate")) (Fin 0) = false →
  Num.ltb (ToNumber (prop data "hum")) (Fin 0) = false →
  Num.gtb (ToNumber (prop data "hum")) (Fin 100) = false →
  ∃ r, fetchWeather id w = (Ret r, after_profile id w)
       ∧ reports id w data lastUpdate profile r.
Proof.
  intros Hid Hrep Ht Hu Ho Htemp Hdew Hbar Hrain Hhum0 Hhum100.
  assert (invalid_data data = false) as Hvalid.
  { unfold invalid_data. rewrite cloudsHeight_negative.
    by rewrite Htemp, Hdew, Hbar, Hrain, Hhum0, Hhum100. }
  pose proof (fetchWeather_run id w data lastUpdate profile Hid Hrep) as Hrun.
  unfold weatherReport in Hrun.
  rewrite (marker_missing_false data lastUpdate profile) in Hrun by done.
  simpl in Hrun. rewrite Hvalid in Hrun. simpl in Hrun.
  eexists. split; [exact Hrun|].
  split; [done|]. split; [by rewrite Hrun|]. done.
Qed.

(** X12. A report passes the other fields through: every field of the
    values payload except [epoch] is in the weather section unchanged
    unless it bears the name of a derived field, and every field of the
    last-update payload is in the update section unchanged unless it bears
    the name of a derived field. *)
Theorem report_passes_fields_through (id : string) (w : world)
    (data lastUpdate profile r : value) :
  reports id w data lastUpdate profile r →
  ∃ weather update : gmap string value,
    prop r "weather" = VObj weather
    ∧ prop r "update" = VObj update
    ∧ (∀ k, k ≠ "epoch" → k ∉ derived_weather_keys →
         weather !! k = own_props data !! k)
    ∧ (∀ k, k ∉ derived_update_keys → update !! k = own_props lastUpdate !! k).
Proof.
  intros [_ Hr]%reports_inv.
  apply weatherReport_inv in Hr as (_ & _ & ->).
  rewrite report_weather, report_update.
  eexists _, _. split; [done|]. split; [done|].
  unfold derived_weather_keys, derived_update_keys. split.
  - intros k Hk Hd. rewrite !lookup_insert_ne by set_solver.
    by rewrite lookup_delete_ne.
  - intros k Hd. by rewrite !lookup_insert_ne by set_solver.
Qed.

(** X13. Whatever the values payload, the condition label is one of
    eleven: the four pressure labels, each alone or followed by [-fog],
    and the three rain labels. *)
Theorem weatherAvg_vocabulary (data : value) : weatherAvg data ∈ condition_labels.
Proof.
  unfold weatherAvg, condition_labels.
  repeat match goal with
         | |- context [if ?c then _ else _] => destruct c
         end;
    apply list_elem_of_In; vm_compute; tauto.
Qed.

(** X14. Fields missing from the values payload: without [rainrate] (or
    with [rainrate] null) the payload is not rejected for its rain rate,
    and the label of the report is [heavy] without [rainrate] and [light]
    for a null one; with a rain rate equal to 0 and without [bar], the
    pressure label is [clear]. *)
Theorem label_of_missing_fields (id : string) (w : world)
    (data lastUpdate profile r : value) :
  reports id w data lastUpdate profile r →
  let label := prop (prop r "weather") "weatherAvg" in
  (prop data "rainrate" = VUndef → label = VStr "heavy")
  ∧ (prop data "rainrate" = VNull → label = VStr "light")
  ∧ (loose_eq_zero (prop data "rainrate") = true → prop data "bar" = VUndef →
     label = VStr (if Num.ltb (cloudsHeight data) (Fin 150) then "clear-fog" else "clear")).
Proof.
  intros [_ Hr]%reports_inv label.
  apply weatherReport_inv in Hr as (_ & _ & ->).
  assert (label = VStr (weatherAvg data)) as ->.
  { unfold label. rewrite report_weather. unfold prop.
    rewrite lookup_insert_ne by done. by rewrite lookup_insert_eq. }
  unfold weatherAvg. repeat split.
  - by intros ->.
  - by intros ->.
  - intros -> ->. simpl. by destruct (Num.ltb _ _).
Qed.

(** X17. The [error] field tells the two results of [fetchWeather] apart:
    the call always returns, either a report, an object of exactly the
    three sections without an [error] field, when the body of the [try]
    returned it, or [{ error }] holding what the body threw. *)
Theorem fetchWeather_result_shape (id : string) (w : world) :
  ∃ r w', fetchWeather id w = (Ret r, w')
    ∧ ((fetchWeather_try id w = (Ret r, w') ∧ is_report r
        ∧ ∃ weather update profile,
            r = VObj {[ "weather" := VObj weather; "update" := VObj update;
                        "profile" := profile ]})
       ∨ (∃ e, fetchWeather_try id w = (Throw e, w') ∧ r = error_obj e ∧ ¬ is_report r)).
Proof.
  destruct (try_catch_returns (fetchWeather_try id) error_obj w)
    as [(r & w' & Hbody & Hres)|(e & w' & Hbody & Hres)].
  - exists r, w'. split; [done|]. left. split; [done|].
    assert (∃ data lastUpdate profile, weatherReport data lastUpdate profile = Ret r)
      as (data & lastUpdate & profile & Hr).
    { revert Hbody. unfold fetchWeather_try.
      destruct (bool_decide (id = "") || ten_digits id); [done|].
      unfold mbind, M_bind, fetchData, lift. simpl.
      destruct (fetchData_reply w _ _) as [data|]; [|done].
      destruct (fetchData_reply _ updatedate_url _) as [lastUpdate|]; [|done].
      destruct (fetchData_reply _ profile_url _) as [profile|]; [|done].
      intros [= Hr _]. eauto. }
    apply weatherReport_inv in Hr as (_ & _ & ->).
    split; [done | eauto].
  - exists (error_obj e), w'. split; [done|]. right. exists e.
    split; [done|]. split; [done | apply error_obj_not_report].
Qed.

End Further.

(** *** What the queries never touch *)

Lemma extends_refl (w : world) : extends w w.
Proof. by split. Qed.

Lemma extends_trans (w1 w2 w3 : world) : extends w1 w2 → extends w2 w3 → extends w1 w3.
Proof. intros [Hs1 Ht1] [Hs2 Ht2]. split; [congruence | by etrans]. Qed.

Lemma extends_record (e : event) (w : world) : extends w (record_event e w).
Proof. split; [done|]. by apply prefix_app_r. Qed.

Section Appends.
Context `{Utils} {S : Type} `{Frame S}.
Hypothesis frame_law : ∀ (w : world) (s : S), frame_world (frame_with w s) = w.

Lemma appends_ret {A} (a : A) : only_appends (mret a : M S A).
Proof. intros s. apply extends_refl. Qed.

Lemma appends_throw {A} (e : value) : only_appends (throw e : M S A).
Proof. intros s. apply extends_refl. Qed.

Lemma appends_lift {A} (o : outcome A) : only_appends (lift o : M S A).
Proof. intros s. apply extends_refl. Qed.

Lemma appends_bind {A B} (m : M S A) (k : A → M S B) :
  only_appends m → (∀ a, only_appends (k a)) → only_appends (m ≫= k).
Proof.
  intros Hm Hk s. specialize (Hm s). unfold mbind, M_bind.
  destruct (m s) as [[a|e] s']; [|done].
  eapply extends_trans; [exact Hm | apply Hk].
Qed.

Lemma appends_try_catch {A} (body : M S A) (handler : value → M S A) :
  only_appends body → (∀ e, only_appends (handler e)) →
  only_appends (try_catch body handler).
Proof.
  intros Hm Hk s. specialize (Hm s). unfold try_catch.
  destruct (body s) as [[a|e] s']; [done|].
  eapply extends_trans; [exact Hm | apply Hk].
Qed.

Lemma appends_fetchData (u : string) (payload : option string) :
  only_appends (fetchData u payload : M S value).
Proof. intros s. unfold fetchData. simpl. rewrite frame_law. apply extends_record. Qed.

Lemma appends_console_log (msg : string) : only_appends (console_log msg : M S unit).
Proof. intros s. unfold console_log. simpl. rewrite frame_law. apply extends_record. Qed.

Lemma appends_getCookie : only_appends (getCookie : M S _).
Proof. intros s. apply extends_refl. Qed.

End Appends.

Section Untouched.
Context `{Utils}.

Lemma appends_set_url (u : string) : only_appends (set_url u).
Proof. intros f. apply extends_refl. Qed.

Lemma appends_get_url : only_appends get_url.
Proof. intros f. apply extends_refl. Qed.

(** Walks through the body of an operation. *)
Ltac appends :=
  repeat first
    [ apply appends_ret | apply appends_throw | apply appends_lift
    | apply appends_fetchData; done | apply appends_console_log; done
    | apply appends_getCookie | apply appends_set_url | apply appends_get_url
    | apply appends_bind; [|intros ?]
    | apply appends_try_catch; [|intros ?]
    | match goal with
      | |- only_appends (if ?c then _ else _) => destruct c
      | |- only_appends (match ?d with _ => _ end) => destruct d
      end ].

(** X16. None of the six queries changes the session store, whatever the
    replies and whether it fails or not, and none removes anything from
    the trace: the world after the call only has more requests (and, for
    [getTop], log lines) at the end. *)
Theorem queries_only_append (w : world) :
  (∀ id, extends w (fetchWeather id w).2)
  ∧ (∀ id, extends w (getStationStatus id w).2)
  ∧ (∀ id, extends w (getStatistics id w).2)
  ∧ (∀ lat lon radius, extends w (getNearest lat lon radius w).2)
  ∧ (∀ d countryCode period, extends w (getTop d countryCode period w).2)
  ∧ extends w (getOwn w).2.
Proof.
  repeat match goal with |- _ ∧ _ => split end; intros.
  - assert (only_appends (fetchWeather id)) as Ha; [|exact (Ha w)].
    unfold fetchWeather, fetchWeather_try. appends.
  - assert (only_appends (getStationStatus id)) as Ha; [|exact (Ha w)].
    unfold getStationStatus, getStationStatus_try. appends.
  - assert (only_appends (getStatistics id)) as Ha; [|exact (Ha w)].
    unfold getStatistics, getStatistics_try. appends.
  - assert (only_appends (getNearest lat lon radius)) as Ha; [|exact (Ha w)].
    unfold getNearest, getNearest_try. appends.
  - assert (only_appends (try_catch (getTop_try d countryCode period)
                            (λ err, mret (error_obj err)))) as Ha.
    { unfold getTop_try. appends. }
    specialize (Ha {| url := None; top_world := w |}).
    unfold getTop, getTop_run.
    by destruct (try_catch _ _ _) as [r f].
  - assert (only_appends getOwn) as Ha; [|exact (Ha w)].
    unfold getOwn, getOwn_try. appends.
Qed.

End Untouched.

(** ** The further properties on concrete environments *)

Section OnLab.
Import Sample Lab.

Lemma login_cookie_pieces_witness :
  join "; " (split "; " (join "; " (getSetCookie signin_ok)))
  = join "; " (getSetCookie signin_ok)
  ∧ split "; " (join "; " (getSetCookie signin_ok)) ≠ [].
Proof.
  destruct (@login_cookie_pieces online "a@b" "pw" None w_remembered signin_ok)
    as (_ & Hne & Hjoin & _); [reflexivity | reflexivity |].
  by split.
Defined.

Lemma login_refused_keeps_session_witness :
  (@login (serving stats) "a@b" "pw" (Some true) w_remembered).1 = Ret false
  ∧ store (@login (serving stats) "a@b" "pw" (Some true) w_remembered).2
    = store w_remembered.
Proof.
  destruct (@login_refused_keeps_session (serving stats) "a@b" "pw" (Some true)
              w_remembered refused) as (Hr & Hs & _); [reflexivity | done |].
  by split.
Defined.

Lemma login_opt_in_witness :
  credentials (store (@login online "a@b" "pw" (Some true) w_remembered).2)
  = Some ("a@b", "pw").
Proof.
  destruct (@login_opt_in online "a@b" "pw" w_remembered signin_ok)
    as (_ & _ & _ & Hkept); [reflexivity | reflexivity |].
  apply Hkept; [apply store_cookies_remembers | by vm_compute].
Defined.

Lemma getStatistics_outcomes_witness :
  @getStatistics (serving stats) "1234567890" w0
  = (Ret stats, record_event (FetchData stats_url (Some "code=1234567890")) w0)
  ∧ @getStatistics (serving VNull) "" w0
    = (Ret (error_obj FetchFailed), record_event (FetchData stats_url (Some "code=")) w0)
  ∧ @getStatistics (serving (VNum (Fin 5))) "d1234" w0
    = (Ret (error_obj VTypeError), record_event (FetchData stats_url (Some "code=d1234")) w0)
  ∧ @getStatistics unreachable "d1234" w0
    = (Ret (error_obj VTypeError), record_event (FetchData stats_url (Some "code=d1234")) w0).
Proof.
  split; [|split; [|split]].
  - destruct (@getStatistics_outcomes (serving stats) "1234567890" w0) as (Hok & _).
    by apply (Hok stats).
  - destruct (@getStatistics_outcomes (serving VNull) "" w0) as (_ & Hfalsy & _).
    by apply (Hfalsy VNull).
  - destruct (@getStatistics_outcomes (serving (VNum (Fin 5))) "d1234" w0)
      as (_ & _ & _ & Hprim & _).
    by apply (Hprim (VNum (Fin 5))).
  - destruct (@getStatistics_outcomes unreachable "d1234" w0) as (_ & _ & _ & _ & Hdown).
    by apply (Hdown VTypeError).
Defined.

Lemma getStationStatus_outcomes_witness :
  (@getStationStatus (serving (VArr [device])) "d1234" w_session).1 = Ret (VArr [device])
  ∧ (@getStationStatus (serving (VArr [])) "d1234" w_session).1
    = Ret (error_obj VTypeError)
  ∧ (@getStationStatus (serving stats) "d1234" w_session).1 = Ret (error_obj FetchFailed).
Proof.
  split; [|split].
  - destruct (@getStationStatus_outcomes (serving (VArr [device])) "d1234" w_session)
      as (Hok & _); [done|].
    by rewrite (Hok device []).
  - destruct (@getStationStatus_outcomes (serving (VArr [])) "d1234" w_session)
      as (_ & Hempty & _); [done|].
    by rewrite Hempty.
  - destruct (@getStationStatus_outcomes (serving stats) "d1234" w_session)
      as (_ & _ & Hobj & _); [done|].
    by rewrite (Hobj stats).
Defined.

Lemma getNearest_outcomes_witness :
  (@getNearest (serving listing) (inl "48.1") (inr (Fin 2)) (inl "50") w0).1
  = Ret (VObj {[ "sorted_by" := VStr "distance"; "list" := VArr [device] ]})
  ∧ (@getNearest (serving stats) (inl "48.1") (inr (Fin 2)) (inl "50") w0).1
    = Ret (nearest_error FetchFailed).
Proof.
  split.
  - destruct (@getNearest_outcomes (serving listing) (inl "48.1") (inr (Fin 2)) (inl "50") w0)
      as (Hok & _).
    by rewrite (Hok listing).
  - destruct (@getNearest_outcomes (serving stats) (inl "48.1") (inr (Fin 2)) (inl "50") w0)
      as (_ & _ & Hno & _).
    rewrite (Hno stats); [done | done | done | by left].
Defined.

Lemma getTop_request_witness :
  trace (@getTop (serving listing) popular "FR" (Some "week") w0).2
  = [Log "https://app.weathercloud.net/page/popular/country/FR/period/week";
     FetchData "https://app.weathercloud.net/page/popular/country/FR/period/week" None]
  ∧ @getTop (serving listing) newest "FR" (Some "week") w0
    = @getTop (serving listing) newest "FR" None w0
  ∧ @getTop (serving listing) popular "FR" (Some "") w0
    = (Ret (error_obj PeriodRequired), w0).
Proof.
  destruct (@getTop_request (serving listing) popular "FR" (Some "week") w0)
    as (Htrace & _ & _).
  destruct (@getTop_request (serving listing) newest "FR" (Some "week") w0)
    as (_ & Hignored & _).
  destruct (@getTop_request (serving listing) popular "FR" (Some "") w0)
    as (_ & _ & Hempty).
  split; [|split].
  - by destruct Htrace as [-> _].
  - by destruct Hignored as [_ ->].
  - by apply Hempty.
Defined.

Lemma getTop_outcomes_witness :
  (@getTop (serving listing) newest "FR" None w0).1
  = Ret (VObj {[ "sorted_by" := VStr "age"; "list" := VArr [device] ]})
  ∧ (@getTop (serving listing) popular "FR" (Some "week") w0).1
    = Ret (VObj {[ "sorted_by" := VStr "views"; "list" := VArr [device] ]})
  ∧ (@getTop unreachable followers "FR" None w0).1 = Ret (error_obj VTypeError).
Proof.
  split; [|split].
  - destruct (@getTop_outcomes (serving listing) newest "FR" None w0) as (Hok & _); [done|].
    by rewrite (Hok listing).
  - destruct (@getTop_outcomes (serving listing) popular "FR" (Some "week") w0)
      as (Hok & _); [done|].
    by rewrite (Hok listing).
  - destruct (@getTop_outcomes unreachable followers "FR" None w0)
      as (_ & _ & _ & Hdown); [done|].
    by rewrite (Hdown VTypeError).
Defined.

Lemma getOwn_outcomes_witness :
  (@getOwn (serving listing) w_session).1
  = Ret (VObj {[ "devices" := VObj {[ "sorted_by" := VUndef; "list" := VArr [device] ]};
                 "favorites" := VObj {[ "sorted_by" := VUndef; "list" := VArr [] ]} ]})
  ∧ (@getOwn (serving stats) w_session).1 = Ret (error_obj FetchFailed).
Proof.
  split.
  - destruct (@getOwn_outcomes (serving listing) w_session) as (Hok & _); [done|].
    by erewrite (Hok listing).
  - destruct (@getOwn_outcomes (serving stats) w_session) as (_ & _ & _ & Hno & _); [done|].
    rewrite (Hno stats); [done | done | done | by left].
Defined.

Lemma fetchWeather_stops_at_first_rejection_witness :
  @fetchWeather unreachable "d1234" w0
  = (Ret (error_obj VTypeError), after_values "d1234" w0).
Proof.
  destruct (@fetchWeather_stops_at_first_rejection unreachable "d1234" w0) as (Hfirst & _).
  { by vm_compute. }
  by apply Hfirst.
Defined.

Lemma fetchWeather_accepts_witness :
  ∃ r, @fetchWeather (observing no_rainrate) "d1234" w0 = (Ret r, after_profile "d1234" w0)
       ∧ @is_report r.
Proof.
  destruct (@fetchWeather_accepts (observing no_rainrate) "d1234" w0 no_rainrate
              (VObj lastUpdate) (VObj profile)) as (r & Hr & _ & _ & Hrep);
    try by vm_compute.
  by exists r.
Defined.

Lemma report_passes_fields_through_witness :
  prop (prop report "weather") "bar" = VNum (Fin 1012)
  ∧ prop (prop report "update") "update" = VNum (Fin 95).
Proof.
  destruct (report_passes_fields_through "d1234" w0 (VObj values) (VObj lastUpdate)
              (VObj profile) report sample_reports)
    as (weather & update & -> & -> & Hw & Hu).
  unfold prop.
  rewrite Hw, Hu; [done | by apply (bool_decide_unpack _) | done
                  | by apply (bool_decide_unpack _)].
Defined.

Lemma label_of_missing_fields_witness :
  prop (prop (report_of no_rainrate) "weather") "weatherAvg" = VStr "heavy"
  ∧ prop (prop (report_of at_threshold_no_bar) "weather") "weatherAvg" = VStr "clear".
Proof.
  destruct (@label_of_missing_fields (observing no_rainrate) "d1234" w0 no_rainrate
              (VObj lastUpdate) (VObj profile) (report_of no_rainrate)) as (Hheavy & _).
  { apply lab_reports. by vm_compute. }
  destruct (@label_of_missing_fields (observing at_threshold_no_bar) "d1234" w0
              at_threshold_no_bar (VObj lastUpdate) (VObj profile)
              (report_of at_threshold_no_bar)) as (_ & _ & Hclear).
  { apply lab_reports. by vm_compute. }
  split.
  - by apply Hheavy.
  - rewrite Hclear; by vm_compute.
Defined.

End OnLab.
